(** * omada.py: the Omada controller client, embedded and verified

    The client of [omada.py] is embedded shallowly: Python values are JSON
    trees (Python's [None] is JSON [null]), dictionaries are finite maps
    keyed by strings, and every method is a computation in a state and
    exception monad.  The state holds the [Omada] instance, the mutable
    objects that callers share with it, the requests issued so far and the
    warnings emitted; the world (the controller behind the session and the
    clock) is a parameter of every method. *)

From Stdlib Require Import ZArith String Ascii Floats DecimalString.
From stdpp Require Import gmap strings list fin_maps functions.

(** ** Python values *)

#[warnings="-register-all"]
Inductive json : Type :=
  | JNull
  | JBool (b : bool)
  | JNum (n : Z)
  | JFloat (f : float)
  | JStr (s : string)
  | JArr (l : list json)
  | JObj (m : gmap string json).

(** Number of nodes of a value; members of a container are smaller than it. *)
Fixpoint json_size (j : json) : nat :=
  match j with
  | JArr l => S (foldr (λ x n, json_size x + n) 0 l)
  | JObj m => S (map_fold (λ _ x n, json_size x + n) 0 m)
  | _ => 1
  end.

Inductive verb := GET | POST | PATCH.

(** A call [session.<verb>(url, params=..., data=..., json=...)]. *)
Record request := {
  req_verb : verb;
  req_url : string;
  req_params : json;
  req_data : json;
  req_json : json
}.

(** What came back: the HTTP status and the body, [None] when the body is
    not JSON. *)
Record response := {
  status_code : Z;
  body : option json
}.

(** The controller as seen through the persistent session, and the clock.
    [server r = None] is a request that got no response at all. *)
Record world := {
  server : request → option response;
  clock : Z
}.

(** ** Exceptions *)

(** The fields of an [OmadaError] instance. *)
Record OmadaError := {
  errorCode : json;
  msg : json
}.

Inductive exn :=
  | TypeError
  | KeyError (key : string)
  | ValueError
  | IndentationError
  | ConfigparserError (class : string)
  | FileNotFoundError (name : string)
  | ConnectionError
  | HTTPError (status : Z)
  | JSONDecodeError
  | Omada_error (e : OmadaError).

Inductive outcome (A : Type) :=
  | Ret (a : A)
  | Raise (e : exn).
Arguments Ret {A} a.
Arguments Raise {A} e.

(** ** Operators of the language, on values *)

Definition is_None (v : json) : bool :=
  match v with JNull => true | _ => false end.

(** [v == 0]: numbers compare by value, and [False] is the number 0. *)
Definition py_eq_zero (v : json) : bool :=
  match v with
  | JNum n => (n =? 0)%Z
  | JBool b => negb b
  | JFloat f => PrimFloat.eqb f 0%float
  | _ => false
  end.

(** [needle in hay] on strings: [needle] occurs in [hay]. *)
Fixpoint str_contains (needle hay : string) : bool :=
  String.prefix needle hay ||
  match hay with
  | EmptyString => false
  | String _ rest => str_contains needle rest
  end.

(** [k in v] for a string [k]: a key of a dictionary, an element of a list,
    a substring of a string; other values are not iterable. *)
Definition py_contains (k : string) (v : json) : outcome bool :=
  match v with
  | JObj m => Ret (bool_decide (is_Some (m !! k)))
  | JArr l =>
      Ret (existsb (λ x, match x with JStr s => String.eqb s k | _ => false end) l)
  | JStr s => Ret (str_contains k s)
  | _ => Raise TypeError
  end.

(** [v[k]] for a string [k]. *)
Definition py_getitem (v : json) (k : string) : outcome json :=
  match v with
  | JObj m =>
      match m !! k with
      | Some x => Ret x
      | None => Raise (KeyError k)
      end
  | _ => Raise TypeError
  end.

(** [del v[k]] for a string [k]; the value of the object afterwards. *)
Definition py_delitem (v : json) (k : string) : outcome json :=
  match v with
  | JObj m =>
      match m !! k with
      | Some _ => Ret (JObj (delete k m))
      | None => Raise (KeyError k)
      end
  | _ => Raise TypeError
  end.

(** [a + b + c] where [a] and [c] are string literals. *)
Definition py_concat3 (a : string) (b : json) (c : string) : outcome json :=
  match b with
  | JStr s => Ret (JStr (a +:+ s +:+ c))
  | _ => Raise TypeError
  end.

(** The one-character string made of a double quote (code 34). *)
Definition dquote : string := String (ascii_of_nat 34) EmptyString.

(** [str(n)] for an integer. *)
Definition str_of_int (n : Z) : string := NilZero.string_of_int (Z.to_int n).

(** ** OmadaError *)

(** [OmadaError.__init__]: the instance built from an envelope, or the
    exception the constructor itself raises. *)
Definition OmadaError_init (js : json) : outcome OmadaError :=
  if is_None js then Raise TypeError
  else
    match py_contains "errorCode" js with
    | Raise e => Raise e
    | Ret has_code =>
        match (if has_code then py_getitem js "errorCode" else Ret (JNum 0)) with
        | Raise e => Raise e
        | Ret code =>
            match py_contains "msg" js with
            | Raise e => Raise e
            | Ret has_msg =>
                if has_msg then
                  match py_getitem js "msg" with
                  | Raise e => Raise e
                  | Ret m =>
                      match py_concat3 dquote m dquote with
                      | Raise e => Raise e
                      | Ret quoted => Ret {| errorCode := code; msg := quoted |}
                      end
                  end
                else Ret {| errorCode := code; msg := JNull |}
            end
        end
    end.

(** ** Configuration *)

(** A section as [section.get] sees it: for each option that is set, its
    value after interpolation, or the exception that interpolation raises
    on it ([ConfigparserError] with the name of the class). *)
Abbreviation SectionProxy := (gmap string (outcome string)).

(** The sections that a parser holds after [config.read]. *)
Abbreviation ConfigParser := (gmap string SectionProxy).

(** [value.lower()] on ASCII letters. *)
Definition lower_ascii (c : ascii) : ascii :=
  let n := nat_of_ascii c in
  if (65 <=? n)%nat && (n <=? 90)%nat then ascii_of_nat (n + 32) else c.

Fixpoint lower (s : string) : string :=
  match s with
  | EmptyString => EmptyString
  | String c rest => String (lower_ascii c) (lower rest)
  end.

(** [section.get(option)]: the value, or [None] for an option that is not
    set. *)
Definition section_get (sec : SectionProxy) (opt : string)
  : outcome (option string) :=
  match sec !! opt with
  | None => Ret None
  | Some (Ret v) => Ret (Some v)
  | Some (Raise e) => Raise e
  end.

(** [section.get(option, fallback)]. *)
Definition section_get_fallback (sec : SectionProxy) (opt fallback : string)
  : outcome string :=
  match section_get sec opt with
  | Ret (Some v) => Ret v
  | Ret None => Ret fallback
  | Raise e => Raise e
  end.

(** [section.getboolean(option, fallback)]. *)
Definition getboolean (sec : SectionProxy) (opt : string) (fallback : bool)
  : outcome bool :=
  match section_get sec opt with
  | Raise e => Raise e
  | Ret None => Ret fallback
  | Ret (Some v) =>
      let v := lower v in
      if existsb (String.eqb v) ["1"; "yes"; "true"; "on"] then Ret true
      else if existsb (String.eqb v) ["0"; "no"; "false"; "off"] then Ret false
      else Raise ValueError
  end.

(** [config[name]]. *)
Definition cfg_section (cfg : ConfigParser) (name : string)
  : outcome SectionProxy :=
  match cfg !! name with
  | Some sec => Ret sec
  | None => Raise (KeyError name)
  end.

(** [section.get(option)] as a value of the language. *)
Definition cfg_get (sec : SectionProxy) (opt : string) : outcome json :=
  match section_get sec opt with
  | Ret (Some v) => Ret (JStr v)
  | Ret None => Ret JNull
  | Raise e => Raise e
  end.

(** ** The Omada instance *)

Record Omada := {
  config : option ConfigParser;
  token : json;
  baseurl : option string;
  site : string;
  verify : bool;
  warnings : bool
}.

(** [Omada.__init__].  [files] gives, for the name of a regular file, what
    [config.read] makes of it: the exception the parser raises, or the
    sections the parser holds afterwards; [None] is a name that is not a
    regular file.  [arg_baseurl = None] is the default [baseurl=None]. *)
Definition Omada_init (files : string → option (outcome ConfigParser))
    (arg_config : string) (arg_baseurl : option string) (arg_site : string)
    (arg_verify arg_warnings : bool) : outcome Omada :=
  match arg_baseurl with
  | Some b =>
      Ret {| config := None; token := JNull; baseurl := Some b;
             site := arg_site; verify := arg_verify; warnings := arg_warnings |}
  | None =>
      match files arg_config with
      | Some (Raise e) => Raise e
      | Some (Ret cfg) =>
          match cfg_section cfg "omada" with
          | Raise e => Raise e
          | Ret sec =>
          match section_get sec "baseurl" with
          | Raise e => Raise e
          | Ret b =>
          match cfg_section cfg "omada" with
          | Raise e => Raise e
          | Ret sec =>
          match section_get_fallback sec "site" "Default" with
          | Raise e => Raise e
          | Ret s =>
          match cfg_section cfg "omada" with
          | Raise e => Raise e
          | Ret sec =>
          match getboolean sec "verify" true with
          | Raise e => Raise e
          | Ret v =>
          match cfg_section cfg "omada" with
          | Raise e => Raise e
          | Ret sec =>
          match getboolean sec "warnings" true with
          | Raise e => Raise e
          | Ret wn =>
              Ret {| config := Some cfg; token := JNull; baseurl := b;
                     site := s; verify := v; warnings := wn |}
          end end end end end end end end
      | None => Raise (FileNotFoundError arg_config)
      end
  end.

Definition ApiPath : string := "/api/v2".

(** ** State and effects *)

(** Mutable objects that a caller hands to the client are named by their
    address; the store gives the present value of each. *)
Abbreviation loc := nat.

Record state := {
  self : Omada;
  heap : loc → json;
  sent : list request;
  warned : list string
}.

(** A method runs from a state to an outcome and the state it leaves; an
    exception keeps the changes made before it was raised. *)
Definition M (A : Type) : Type := state → outcome A * state.

#[global] Instance M_ret : MRet M := λ A a st, (Ret a, st).

#[global] Instance M_bind : MBind M := λ A B f m st,
  match m st with
  | (Ret a, st') => f a st'
  | (Raise e, st') => (Raise e, st')
  end.

Definition raise {A} (e : exn) : M A := λ st, (Raise e, st).

Definition lift {A} (o : outcome A) : M A := λ st, (o, st).

Definition this : M Omada := λ st, (Ret (self st), st).

Definition set_token (t : json) : M unit := λ st,
  let o := self st in
  (Ret tt,
   {| self := {| config := config o; token := t; baseurl := baseurl o;
                 site := site o; verify := verify o; warnings := warnings o |};
      heap := heap st; sent := sent st; warned := warned st |}).

Definition self_site : M string := λ st, (Ret (site (self st)), st).

Definition self_warnings : M bool := λ st, (Ret (warnings (self st)), st).

(** [warnings.warn(text, stacklevel=2)]. *)
Definition warn (text : string) : M unit := λ st,
  (Ret tt,
   {| self := self st; heap := heap st; sent := sent st;
      warned := warned st ++ [text] |}).

Definition load (l : loc) : M json := λ st, (Ret (heap st l), st).

Definition store (l : loc) (v : json) : M unit := λ st,
  (Ret tt,
   {| self := self st; heap := <[l := v]> (heap st); sent := sent st;
      warned := warned st |}).

Definition record_request (r : request) (st : state) : state :=
  {| self := self st; heap := heap st; sent := sent st ++ [r];
     warned := warned st |}.

Definition BeaconWarning : string :=
  "settings['beaconControl'] was removed as it causes an error".

(** ** The methods of [Omada] *)

Section Client.

Variable w : world.

(** [timestamp()]: the clock, in whole milliseconds. *)
Definition timestamp : Z := clock w.

(** [self.session.<verb>(url, params=..., data=..., json=...)]. *)
Definition session_request (v : verb) (url : string) (params data js : json)
  : M response := λ st,
  let r := {| req_verb := v; req_url := url; req_params := params;
              req_data := data; req_json := js |} in
  match server w r with
  | Some resp => (Ret resp, record_request r st)
  | None => (Raise ConnectionError, record_request r st)
  end.

(** [response.raise_for_status()]. *)
Definition raise_for_status (resp : response) : M unit :=
  if (400 <=? status_code resp)%Z && (status_code resp <? 600)%Z
  then raise (HTTPError (status_code resp))
  else mret tt.

(** [response.json()]. *)
Definition response_json (resp : response) : M json :=
  match body resp with
  | Some j => mret j
  | None => raise JSONDecodeError
  end.

Definition url_for (path : string) : M string :=
  o ← this;
  match baseurl o with
  | Some b => mret (b +:+ ApiPath +:+ path)
  | None => raise TypeError
  end.

(** The keyword argument [json] of the three request methods is [js] here;
    an argument left out is [JNull]. *)
Definition get (path : string) (params data js : json) : M json :=
  o ← this;
  let params :=
    if is_None params && negb (is_None (token o))
    then JObj {[ "token" := token o; "_" := JNum timestamp ]}
    else params in
  url ← url_for path;
  resp ← session_request GET url params data js;
  raise_for_status resp;;
  js ← response_json resp;
  code ← lift (py_getitem js "errorCode");
  if py_eq_zero code then
    has ← lift (py_contains "result" js);
    if has : bool then lift (py_getitem js "result") else mret JNull
  else
    e ← lift (OmadaError_init js);
    raise (Omada_error e).

Definition post (path : string) (params data js : json) : M json :=
  o ← this;
  let params :=
    if is_None params && negb (is_None (token o))
    then JObj {[ "token" := token o; "_" := JNum timestamp ]}
    else params in
  url ← url_for path;
  resp ← session_request POST url params data js;
  raise_for_status resp;;
  js ← response_json resp;
  code ← lift (py_getitem js "errorCode");
  if py_eq_zero code then
    has ← lift (py_contains "result" js);
    if has : bool then lift (py_getitem js "result") else mret JNull
  else
    e ← lift (OmadaError_init js);
    raise (Omada_error e).

Definition patch (path : string) (params data js : json) : M json :=
  o ← this;
  let params :=
    if is_None params && negb (is_None (token o))
    then JObj {[ "token" := token o; "_" := JNum timestamp ]}
    else params in
  url ← url_for path;
  resp ← session_request PATCH url params data js;
  raise_for_status resp;;
  js ← response_json resp;
  code ← lift (py_getitem js "errorCode");
  if py_eq_zero code then
    has ← lift (py_contains "result" js);
    if has : bool then lift (py_getitem js "result") else mret JNull
  else
    e ← lift (OmadaError_init js);
    raise (Omada_error e).

(** [login(username=None, password=None)]. *)
Definition login (username password : json) : M json :=
  '(username, password) ←
    (if is_None username && is_None password then
       o ← this;
       match config o with
       | None => raise TypeError
       | Some cfg =>
           sec ← lift (cfg_section cfg "omada");
           username ← lift (cfg_get sec "username");
           sec ← lift (cfg_section cfg "omada");
           password ← lift (cfg_get sec "password");
           mret (username, password)
       end
     else mret (username, password));
  result ← post "/login" JNull JNull
             (JObj {[ "username" := username; "password" := password ]});
  t ← lift (py_getitem result "token");
  set_token t;;
  mret result.

Definition logout : M json := post "/logout" JNull JNull JNull.

Definition getLoginStatus : M json := get "/loginStatus" JNull JNull JNull.

Definition getCurrentUser : M json := get "/users/current" JNull JNull JNull.

(** Group types. *)
Definition IPGroup : Z := 0.
Definition MACGroup : Z := 2.

(** In the accessors, [site = None] is the default [site=None]. *)
Definition getSiteGroups (site : option string) (type : option Z) : M json :=
  site ← (match site with None => self_site | Some s => mret s end);
  result ←
    match type with
    | None =>
        get ("/sites/" +:+ site +:+ "/setting/profiles/groups") JNull JNull JNull
    | Some t =>
        get ("/sites/" +:+ site +:+ "/setting/profiles/groups/" +:+ str_of_int t)
            JNull JNull JNull
    end;
  lift (py_getitem result "data").

Definition getPortalCandidates (site : option string) : M json :=
  site ← (match site with None => self_site | Some s => mret s end);
  get ("/sites/" +:+ site +:+ "/setting/portal/candidates") JNull JNull JNull.

Definition getRadiusProfiles (site : option string) : M json :=
  site ← (match site with None => self_site | Some s => mret s end);
  get ("/sites/" +:+ site +:+ "/setting/radiusProfiles") JNull JNull JNull.

Definition getScenarios : M json := get "/scenarios" JNull JNull JNull.

Definition getSiteDevices (site : option string) : M json :=
  site ← (match site with None => self_site | Some s => mret s end);
  get ("/sites/" +:+ site +:+ "/devices") JNull JNull JNull.

(** In the file the three statements after this [def] stand at the
    indentation of the [def] line itself: the [def] has no body, Python
    rejects it with [IndentationError], and no call gets as far as a
    request. *)
Definition getSiteClients (w : world) (site : option string) : M json :=
  raise IndentationError.

Definition getSiteSettings (site : option string) : M json :=
  site ← (match site with None => self_site | Some s => mret s end);
  result ← get ("/sites/" +:+ site +:+ "/setting") JNull JNull JNull;
  has ← lift (py_contains "beaconControl" result);
  if has : bool then
    wn ← self_warnings;
    (if wn : bool then warn BeaconWarning else mret tt);;
    lift (py_delitem result "beaconControl")
  else mret result.

(** [settings] is the caller's object: it is read and changed where it
    lives, and the request carries its value at the time of the call. *)
Definition setSiteSettings (settings : loc) (site : option string) : M json :=
  site ← (match site with None => self_site | Some s => mret s end);
  v ← load settings;
  has ← lift (py_contains "beaconControl" v);
  (if has : bool then
     wn ← self_warnings;
     (if wn : bool then warn BeaconWarning else mret tt);;
     v ← load settings;
     v' ← lift (py_delitem v "beaconControl");
     store settings v'
   else mret tt);;
  v ← load settings;
  patch ("/sites/" +:+ site +:+ "/setting") JNull JNull v.

Definition getTimeRanges (site : option string) : M json :=
  site ← (match site with None => self_site | Some s => mret s end);
  get ("/sites/" +:+ site +:+ "/setting/profiles/timeranges") JNull JNull JNull.

Definition getWirelessGroups (site : option string) : M json :=
  site ← (match site with None => self_site | Some s => mret s end);
  result ← get ("/sites/" +:+ site +:+ "/setting/wlans") JNull JNull JNull;
  lift (py_getitem result "data").

Definition getWirelessNetworks (group : string) (site : option string) : M json :=
  site ← (match site with None => self_site | Some s => mret s end);
  result ← get ("/sites/" +:+ site +:+ "/setting/wlans/" +:+ group +:+ "/ssids")
             JNull JNull JNull;
  lift (py_getitem result "data").

End Client.

(** ** Closed forms of a request, used in the proofs *)

(** The query parameters that go out when the caller passed [params]. *)
Definition sent_params (w : world) (o : Omada) (params : json) : json :=
  if is_None params && negb (is_None (token o))
  then JObj {[ "token" := token o; "_" := JNum (clock w) ]}
  else params.

(** The status codes on which [raise_for_status] raises. *)
Definition http_error (resp : response) : bool :=
  (400 <=? status_code resp)%Z && (status_code resp <? 600)%Z.

(** What a parsed body unwraps to. *)
Definition unwrap_envelope (js : json) : outcome json :=
  match py_getitem js "errorCode" with
  | Raise e => Raise e
  | Ret code =>
      if py_eq_zero code then
        match py_contains "result" js with
        | Raise e => Raise e
        | Ret true => py_getitem js "result"
        | Ret false => Ret JNull
        end
      else
        match OmadaError_init js with
        | Raise e => Raise e
        | Ret e => Raise (Omada_error e)
        end
  end.

Definition unwrap_reply (reply : option response) : outcome json :=
  match reply with
  | None => Raise ConnectionError
  | Some resp =>
      if http_error resp then Raise (HTTPError (status_code resp))
      else
        match body resp with
        | None => Raise JSONDecodeError
        | Some js => unwrap_envelope js
        end
  end.

Definition request_of (w : world) (o : Omada) (b : string) (v : verb)
    (path : string) (params data js : json) : request :=
  {| req_verb := v; req_url := b +:+ ApiPath +:+ path;
     req_params := sent_params w o params; req_data := data; req_json := js |}.

Definition run_request (w : world) (v : verb) (path : string)
    (params data js : json) : M json := λ st,
  match baseurl (self st) with
  | None => (Raise TypeError, st)
  | Some b =>
      let r := request_of w (self st) b v path params data js in
      (unwrap_reply (server w r), record_request r st)
  end.

(** The call from [st] to [st'] issued one request, and the controller
    answered it with a success status and the JSON body [env]. *)
Definition received (w : world) (st st' : state) (env : json) : Prop :=
  ∃ r resp, sent st' = sent st ++ [r] ∧ server w r = Some resp ∧
            http_error resp = false ∧ body resp = Some env.

(** The call from [st] to [st'] received an envelope with [errorCode == 0]
    and the value [res] under [result]. *)
Definition succeeded (w : world) (st st' : state) (res : json) : Prop :=
  ∃ (m : gmap string json) c,
    received w st st' (JObj m) ∧ m !! "errorCode" = Some c ∧
    py_eq_zero c = true ∧ m !! "result" = Some res.

(** The accessors that index the result: the request, then [result['data']]. *)
Definition then_data (run : outcome json * state) : outcome json * state :=
  match fst run with
  | Ret result => (py_getitem result "data", snd run)
  | Raise e => (Raise e, snd run)
  end.

(** The credentials that [login] sends, or the exception it raises before
    sending anything. *)
Definition credentials (o : Omada) (username password : json)
  : outcome (json * json) :=
  if is_None username && is_None password then
    match config o with
    | None => Raise TypeError
    | Some cfg =>
        match cfg_section cfg "omada" with
        | Raise e => Raise e
        | Ret sec =>
            match cfg_get sec "username" with
            | Raise e => Raise e
            | Ret u =>
                match cfg_get sec "password" with
                | Raise e => Raise e
                | Ret p => Ret (u, p)
                end
            end
        end
    end
  else Ret (username, password).

(** What the two settings methods make of the settings object: the
    [in] test, then the [del] when the test is true. *)
Definition strip_beacon (v : json) : outcome json :=
  match py_contains "beaconControl" v with
  | Raise e => Raise e
  | Ret true => py_delitem v "beaconControl"
  | Ret false => Ret v
  end.

(** ** Concrete instances and controllers, for running the methods *)

(** An instance built with an explicit base URL, logged in or not. *)
Definition explicit_omada (t : json) : Omada :=
  {| config := None; token := t; baseurl := Some "https://omada:8043";
     site := "Default"; verify := true; warnings := true |}.

Definition fresh_state (o : Omada) : state :=
  {| self := o; heap := λ _, JNull; sent := []; warned := [] |}.

(** A controller that answers every request with status 200 and [env]. *)
Definition answering (env : json) : world :=
  {| server := λ _, Some {| status_code := 200; body := Some env |};
     clock := 1700000000000 |}.

Definition ok_with (result : json) : gmap string json :=
  {[ "errorCode" := JNum 0; "msg" := JStr "Success."; "result" := result ]}.

Definition ok_empty : gmap string json :=
  {[ "errorCode" := JNum 0; "msg" := JStr "Success." ]}.

Definition failed_with (code : Z) (text : string) : gmap string json :=
  {[ "errorCode" := JNum code; "msg" := JStr text ]}.

(** Site settings as a caller holds them, with the key the controller
    rejects and two more, one of them a nested value. *)
Definition demo_settings : gmap string json :=
  {[ "beaconControl" := JObj {[ "enable" := JBool true ]};
     "site" := JObj {[ "name" := JStr "Default" ]};
     "led" := JBool false ]}.

(** A state in which the caller's settings object lives at address 0. *)
Definition settings_state : state :=
  {| self := explicit_omada (JStr "tk");
     heap := <[0 := JObj demo_settings]> (λ _, JNull);
     sent := []; warned := [] |}.


(** A configuration file that names the controller and no credentials, and
    the file system that holds it. *)
Definition bare_config : ConfigParser :=
  {[ "omada" := {[ "baseurl" := Ret "https://omada:8043";
                   "verify" := Ret "False" ]} ]}.

Definition bare_files (name : string) : option (outcome ConfigParser) :=
  if String.eqb name "omada.cfg" then Some (Ret bare_config) else None.

(** The instance that [Omada()] builds from that file. *)
Definition bare_omada : Omada :=
  {| config := Some bare_config; token := JNull;
     baseurl := Some "https://omada:8043"; site := "Default";
     verify := false; warnings := true |}.

(** What the controller answers to a login, and the user it describes. *)
Definition demo_login_result : json :=
  JObj {[ "roleType" := JNum 0; "token" := JStr "5a3f09c1" ]}.

Definition demo_user : json :=
  JObj {[ "name" := JStr "admin"; "roleName" := JStr "Master Administrator" ]}.

(** The call from [st] to [st'] issued no request or one, after those
    already issued. *)
Definition at_most_one_request (st st' : state) : Prop :=
  ∃ new, sent st' = sent st ++ new ∧ length new ≤ 1.

(** The call from [st] to [st'] issued one GET request, to [url], with no
    body. *)
Definition issues_get (st st' : state) (url : string) : Prop :=
  ∃ r, sent st' = sent st ++ [r] ∧ req_verb r = GET ∧ req_url r = url ∧
       req_data r = JNull ∧ req_json r = JNull.

(** A configuration file with credentials and one without a base URL. *)
Definition full_section : SectionProxy :=
  {[ "baseurl" := Ret "https://omada:8043"; "site" := Ret "Office";
     "username" := Ret "admin"; "password" := Ret "secret" ]}.

Definition full_config : ConfigParser := {[ "omada" := full_section ]}.

Definition full_files (name : string) : option (outcome ConfigParser) :=
  if String.eqb name "omada.cfg" then Some (Ret full_config) else None.

Definition siteonly_config : ConfigParser :=
  {[ "omada" := {[ "site" := Ret "Office" ]} ]}.

Definition siteonly_files (name : string) : option (outcome ConfigParser) :=
  if String.eqb name "omada.cfg" then Some (Ret siteonly_config) else None.

(** A controller that answers every request with the given status and
    body. *)
Definition replying (status : Z) (b : option json) : world :=
  {| server := λ _, Some {| status_code := status; body := b |};
     clock := 1700000000000 |}.

(** The instance that [Omada()] builds from the file with credentials. *)
Definition full_omada : Omada :=
  {| config := Some full_config; token := JNull;
     baseurl := Some "https://omada:8043"; site := "Office";
     verify := true; warnings := true |}.

(** The controller answers every request with a success status and the
    envelope [m]. *)
Definition answers_with (w : world) (m : gmap string json) : Prop :=
  ∀ r, ∃ resp, server w r = Some resp ∧ http_error resp = false ∧
               body resp = Some (JObj m).

(** A result that has both a [data] key and the key the settings methods
    strip. *)
Definition demo_table : gmap string json :=
  {[ "data" := JArr [JStr "guests"; JStr "printers"];
     "beaconControl" := JObj {[ "enable" := JBool true ]};
     "totalRows" := JNum 2 ]}.

(** ** The request primitives *)

Ltac run_primitive st :=
  unfold get, post, patch, run_request, url_for, session_request,
    raise_for_status, response_json, unwrap_reply, unwrap_envelope,
    request_of, sent_params, http_error, timestamp, lift, raise, this,
    mbind, M_bind, mret, M_ret;
  cbn beta iota;
  destruct (baseurl (self st)); [|reflexivity];
  match goal with
  | |- context [server ?w ?r] => destruct (server w r) as [?|]
  end; [|reflexivity];
  cbn;
  repeat case_match; simplify_eq; first [reflexivity | congruence].

Lemma get_run w path params data js st :
  get w path params data js st = run_request w GET path params data js st.
Proof. run_primitive st. Qed.

Lemma post_run w path params data js st :
  post w path params data js st = run_request w POST path params data js st.
Proof. run_primitive st. Qed.

Lemma patch_run w path params data js st :
  patch w path params data js st = run_request w PATCH path params data js st.
Proof. run_primitive st. Qed.

(** The three primitives differ in the verb only. *)
Lemma primitive_run f w path params data js st :
  f ∈ [get; post; patch] →
  ∃ v, f w path params data js st = run_request w v path params data js st.
Proof.
  intros Hf.
  repeat (apply elem_of_cons in Hf as [-> | Hf]).
  - exists GET. apply get_run.
  - exists POST. apply post_run.
  - exists PATCH. apply patch_run.
  - by apply elem_of_nil in Hf.
Qed.

Lemma app_singleton_self {A} (l : list A) (x : A) : l ≠ l ++ [x].
Proof.
  intros H. apply (f_equal length) in H. rewrite length_app in H.
  simpl in H. lia.
Qed.

(** A call that received an envelope returns what the envelope unwraps to. *)
Lemma run_request_received w v path params data js st out st' env :
  run_request w v path params data js st = (out, st') →
  received w st st' env →
  out = unwrap_envelope env.
Proof.
  unfold run_request. intros Hrun (r & resp & Hsent & Hsrv & Hok & Hbody).
  destruct (baseurl (self st)) as [b|]; simplify_eq.
  - simpl in Hsent. apply app_inv_head in Hsent. simplify_eq.
    unfold unwrap_reply. by rewrite Hsrv, Hok, Hbody.
  - by apply app_singleton_self in Hsent.
Qed.

(** A call on an instance that has a base URL issues exactly one request,
    and leaves the instance, the store and the warnings as they were. *)
Lemma run_request_sent w v path params data js st out st' b :
  baseurl (self st) = Some b →
  run_request w v path params data js st = (out, st') →
  st' = record_request (request_of w (self st) b v path params data js) st ∧
  out = unwrap_reply (server w (request_of w (self st) b v path params data js)).
Proof. unfold run_request. intros ->. by intros [= <- <-]. Qed.

(** Without a base URL the URL cannot be built and nothing is sent. *)
Lemma run_request_no_baseurl w v path params data js st :
  baseurl (self st) = None →
  run_request w v path params data js st = (Raise TypeError, st).
Proof. unfold run_request. by intros ->. Qed.

Lemma json_size_member (m : gmap string json) k v :
  m !! k = Some v → json_size v < json_size (JObj m).
Proof.
  intros H. simpl.
  rewrite (map_fold_delete_L _ _ k v m); [lia | | done].
  intros. lia.
Qed.

(** A dictionary is not one of its own members. *)
Lemma member_not_self (m : gmap string json) k : m !! k ≠ Some (JObj m).
Proof.
  intros H. apply json_size_member in H. lia.
Qed.

Lemma unwrap_envelope_success (m : gmap string json) c :
  m !! "errorCode" = Some c → py_eq_zero c = true →
  unwrap_envelope (JObj m) = Ret (default JNull (m !! "result")).
Proof.
  intros Hc Hz. unfold unwrap_envelope. simpl. rewrite Hc, Hz.
  by destruct (m !! "result") as [v|] eqn:Hr.
Qed.

(** C1. When the parsed envelope has [errorCode == 0], each of [get],
    [post] and [patch] returns the value under the envelope's [result] key,
    and [None] when the envelope has no such key; what it returns is never
    the envelope itself. *)
Theorem success_returns_result f w path params data js st out st'
    (m : gmap string json) c :
  f ∈ [get; post; patch] →
  f w path params data js st = (out, st') →
  received w st st' (JObj m) →
  m !! "errorCode" = Some c →
  py_eq_zero c = true →
  out = Ret (default JNull (m !! "result")) ∧ out ≠ Ret (JObj m).
Proof.
  intros Hf Hrun Hrecv Hc Hz.
  destruct (primitive_run f w path params data js st Hf) as [v Hv].
  rewrite Hv in Hrun.
  rewrite (run_request_received _ _ _ _ _ _ _ _ _ _ Hrun Hrecv).
  rewrite (unwrap_envelope_success m c Hc Hz).
  split; [done|].
  intros [= Heq].
  destruct (m !! "result") as [r|] eqn:Hr; simpl in Heq; [|done].
  subst r. by apply member_not_self in Hr.
Qed.

Lemma success_returns_result_witness :
  fst (get (answering (JObj (ok_with (JStr "admin")))) "/users/current"
         JNull JNull JNull (fresh_state (explicit_omada (JStr "tk"))))
    = Ret (default JNull (ok_with (JStr "admin") !! "result"))
  ∧ fst (get (answering (JObj (ok_with (JStr "admin")))) "/users/current"
           JNull JNull JNull (fresh_state (explicit_omada (JStr "tk"))))
    ≠ Ret (JObj (ok_with (JStr "admin"))).
Proof.
  apply (success_returns_result get
           (answering (JObj (ok_with (JStr "admin")))) "/users/current"
           JNull JNull JNull (fresh_state (explicit_omada (JStr "tk")))
           _ (snd (get (answering (JObj (ok_with (JStr "admin"))))
                     "/users/current" JNull JNull JNull
                     (fresh_state (explicit_omada (JStr "tk")))))
           (ok_with (JStr "admin")) (JNum 0)).
  - apply list_elem_of_here.
  - apply surjective_pairing.
  - exists (request_of (answering (JObj (ok_with (JStr "admin"))))
              (explicit_omada (JStr "tk")) "https://omada:8043" GET
              "/users/current" JNull JNull JNull),
      {| status_code := 200; body := Some (JObj (ok_with (JStr "admin"))) |}.
    repeat split; vm_compute; reflexivity.
  - vm_compute. reflexivity.
  - reflexivity.
Defined.

(** ** Domain errors *)

Lemma OmadaError_init_dict (m : gmap string json) c :
  m !! "errorCode" = Some c →
  OmadaError_init (JObj m) =
    match m !! "msg" with
    | None => Ret {| errorCode := c; msg := JNull |}
    | Some (JStr s) =>
        Ret {| errorCode := c; msg := JStr (dquote +:+ s +:+ dquote) |}
    | Some _ => Raise TypeError
    end.
Proof.
  intros Hc. unfold OmadaError_init. simpl. rewrite Hc. simpl.
  destruct (m !! "msg") as [[]|]; reflexivity.
Qed.

Lemma unwrap_envelope_failure (m : gmap string json) c :
  m !! "errorCode" = Some c → py_eq_zero c = false →
  unwrap_envelope (JObj m) =
    match m !! "msg" with
    | None => Raise (Omada_error {| errorCode := c; msg := JNull |})
    | Some (JStr s) =>
        Raise (Omada_error
                 {| errorCode := c; msg := JStr (dquote +:+ s +:+ dquote) |})
    | Some _ => Raise TypeError
    end.
Proof.
  intros Hc Hz. unfold unwrap_envelope.
  rewrite (OmadaError_init_dict m c Hc). simpl. rewrite Hc, Hz.
  destruct (m !! "msg") as [[]|]; reflexivity.
Qed.

(** C2, as the code has it. When the parsed envelope has a nonzero
    [errorCode] and its [msg] is a string or is absent, each of [get],
    [post] and [patch] raises an [OmadaError] that carries the envelope's
    [errorCode] unchanged, and as [msg] the envelope's string enclosed in
    a pair of double quotes ([None] when the envelope has no [msg]). *)
Theorem failure_raises_OmadaError f w path params data js st out st'
    (m : gmap string json) c :
  f ∈ [get; post; patch] →
  f w path params data js st = (out, st') →
  received w st st' (JObj m) →
  m !! "errorCode" = Some c →
  py_eq_zero c = false →
  (m !! "msg" = None ∨ ∃ s, m !! "msg" = Some (JStr s)) →
  ∃ e, out = Raise (Omada_error e) ∧ errorCode e = c ∧
       msg e = match m !! "msg" with
               | Some (JStr s) => JStr (dquote +:+ s +:+ dquote)
               | _ => JNull
               end.
Proof.
  intros Hf Hrun Hrecv Hc Hz Hmsg.
  destruct (primitive_run f w path params data js st Hf) as [v Hv].
  rewrite Hv in Hrun.
  rewrite (run_request_received _ _ _ _ _ _ _ _ _ _ Hrun Hrecv).
  rewrite (unwrap_envelope_failure m c Hc Hz).
  destruct Hmsg as [-> | [s ->]]; eexists; eauto.
Qed.

Lemma failure_raises_OmadaError_witness :
  ∃ e, fst (get (answering (JObj (failed_with (-1001) "Invalid request")))
              "/users/current" JNull JNull JNull
              (fresh_state (explicit_omada (JStr "tk"))))
       = Raise (Omada_error e) ∧ errorCode e = JNum (-1001) ∧
       msg e = match failed_with (-1001) "Invalid request" !! "msg" with
               | Some (JStr s) => JStr (dquote +:+ s +:+ dquote)
               | _ => JNull
               end.
Proof.
  apply (failure_raises_OmadaError get
           (answering (JObj (failed_with (-1001) "Invalid request")))
           "/users/current" JNull JNull JNull
           (fresh_state (explicit_omada (JStr "tk")))
           _ (snd (get (answering (JObj (failed_with (-1001) "Invalid request")))
                     "/users/current" JNull JNull JNull
                     (fresh_state (explicit_omada (JStr "tk")))))
           (failed_with (-1001) "Invalid request") (JNum (-1001))).
  - apply list_elem_of_here.
  - apply surjective_pairing.
  - exists (request_of (answering (JObj (failed_with (-1001) "Invalid request")))
              (explicit_omada (JStr "tk")) "https://omada:8043" GET
              "/users/current" JNull JNull JNull),
      {| status_code := 200;
         body := Some (JObj (failed_with (-1001) "Invalid request")) |}.
    repeat split; vm_compute; reflexivity.
  - vm_compute. reflexivity.
  - reflexivity.
  - right. exists "Invalid request". vm_compute. reflexivity.
Defined.

(** When the [msg] of a failed envelope is not a string, the quoting in
    the constructor of [OmadaError] raises, and the call ends in that
    [TypeError]. *)
Lemma failure_with_non_string_msg f w path params data js st out st'
    (m : gmap string json) c v :
  f ∈ [get; post; patch] →
  f w path params data js st = (out, st') →
  received w st st' (JObj m) →
  m !! "errorCode" = Some c →
  py_eq_zero c = false →
  m !! "msg" = Some v →
  (∀ s, v ≠ JStr s) →
  out = Raise TypeError.
Proof.
  intros Hf Hrun Hrecv Hc Hz Hmsg Hv.
  destruct (primitive_run f w path params data js st Hf) as [vb Hvb].
  rewrite Hvb in Hrun.
  rewrite (run_request_received _ _ _ _ _ _ _ _ _ _ Hrun Hrecv).
  rewrite (unwrap_envelope_failure m c Hc Hz), Hmsg.
  destruct v; try done. by destruct (Hv s).
Qed.

(** C2, as the claim states it, fails: the [msg] of the error raised is not
    the [msg] of the envelope.  On the envelope
    [{errorCode: -1001, msg: bad}] the error carries [bad] between double
    quotes, a string two characters longer. *)
Lemma OmadaError_msg_is_not_the_envelope_msg :
  ¬ (∀ f w path params data js st out st' (m : gmap string json) c,
       f ∈ [get; post; patch] →
       f w path params data js st = (out, st') →
       received w st st' (JObj m) →
       m !! "errorCode" = Some c →
       py_eq_zero c = false →
       out = Raise (Omada_error
                      {| errorCode := c; msg := default JNull (m !! "msg") |})).
Proof.
  intros H.
  specialize (H get (answering (JObj (failed_with (-1001) "bad")))
                "/users/current" JNull JNull JNull
                (fresh_state (explicit_omada (JStr "tk")))
                _ _ (failed_with (-1001) "bad") (JNum (-1001))
                (list_elem_of_here _ _) (surjective_pairing _)).
  assert (Hrecv : received (answering (JObj (failed_with (-1001) "bad")))
            (fresh_state (explicit_omada (JStr "tk")))
            (snd (get (answering (JObj (failed_with (-1001) "bad")))
                    "/users/current" JNull JNull JNull
                    (fresh_state (explicit_omada (JStr "tk")))))
            (JObj (failed_with (-1001) "bad"))).
  { exists (request_of (answering (JObj (failed_with (-1001) "bad")))
              (explicit_omada (JStr "tk")) "https://omada:8043" GET
              "/users/current" JNull JNull JNull),
      {| status_code := 200; body := Some (JObj (failed_with (-1001) "bad")) |}.
    repeat split; vm_compute; reflexivity. }
  specialize (H Hrecv eq_refl eq_refl).
  vm_compute in H. discriminate H.
Qed.

(** ** Query parameters *)

Lemma is_None_false v : v ≠ JNull → is_None v = false.
Proof. by destruct v. Qed.

(** What a call adds to the list of requests issued. *)
Lemma run_request_new w v path params data js st out st' new :
  run_request w v path params data js st = (out, st') →
  sent st' = sent st ++ new →
  match baseurl (self st) with
  | Some b => new = [request_of w (self st) b v path params data js]
  | None => new = []
  end.
Proof.
  unfold run_request. intros Hrun Hnew.
  destruct (baseurl (self st)) as [b|]; injection Hrun as <- <-.
  - simpl in Hnew. by apply app_inv_head in Hnew.
  - rewrite <- (app_nil_r (sent st)) in Hnew at 1.
    by apply app_inv_head in Hnew.
Qed.

(** C3. A request made through [get], [post] or [patch] without explicit
    query parameters, while the stored token is not [None], goes out with
    the query parameters [{token, _}] and no others: [token] is the stored
    token and [_] the integer that [timestamp()] returns.  (An instance
    that has a base URL issues exactly one such request.) *)
Theorem auto_injected_params f w path data js st out st' new :
  f ∈ [get; post; patch] →
  token (self st) ≠ JNull →
  f w path JNull data js st = (out, st') →
  sent st' = sent st ++ new →
  Forall (λ r, req_params r =
               JObj {[ "token" := token (self st); "_" := JNum (timestamp w) ]})
         new
  ∧ (baseurl (self st) ≠ None → length new = 1).
Proof.
  intros Hf Htok Hrun Hnew.
  destruct (primitive_run f w path JNull data js st Hf) as [v Hv].
  rewrite Hv in Hrun.
  pose proof (run_request_new _ _ _ _ _ _ _ _ _ _ Hrun Hnew) as Hshape.
  destruct (baseurl (self st)) as [b|]; subst new.
  - split; [|done]. constructor; [|constructor].
    unfold request_of, sent_params, timestamp. simpl.
    by rewrite (is_None_false _ Htok).
  - split; [constructor|done].
Qed.

Lemma auto_injected_params_witness :
  Forall (λ r, req_params r =
               JObj {[ "token" := token (self (fresh_state (explicit_omada (JStr "tk"))));
                       "_" := JNum (timestamp (answering (JObj ok_empty))) ]})
         (sent (snd (post (answering (JObj ok_empty)) "/logout" JNull JNull JNull
                       (fresh_state (explicit_omada (JStr "tk"))))))
  ∧ (baseurl (self (fresh_state (explicit_omada (JStr "tk")))) ≠ None →
     length (sent (snd (post (answering (JObj ok_empty)) "/logout"
                          JNull JNull JNull
                          (fresh_state (explicit_omada (JStr "tk")))))) = 1).
Proof.
  apply (auto_injected_params post (answering (JObj ok_empty)) "/logout"
           JNull JNull (fresh_state (explicit_omada (JStr "tk")))
           (fst (post (answering (JObj ok_empty)) "/logout" JNull JNull JNull
                   (fresh_state (explicit_omada (JStr "tk")))))
           (snd (post (answering (JObj ok_empty)) "/logout" JNull JNull JNull
                   (fresh_state (explicit_omada (JStr "tk")))))).
  - apply list_elem_of_further, list_elem_of_here.
  - discriminate.
  - apply surjective_pairing.
  - reflexivity.
Defined.

(** ** Accessors *)

Lemma append_assoc (a b c : string) : (a +:+ b) +:+ c = a +:+ b +:+ c.
Proof.
  induction a as [|x a IH]; [reflexivity|].
  change (String x ((a +:+ b) +:+ c) = String x (a +:+ b +:+ c)).
  by rewrite IH.
Qed.

Ltac run_accessor :=
  unfold mbind, M_bind, mret, M_ret, self_site; cbn beta iota;
  rewrite ?get_run, ?post_run, ?patch_run.

(** C7, where the code departs from it.  [getSiteClients] issues no
    request at all: the [def] has no body in the file, so for every
    instance and every site the call ends in [IndentationError] with
    nothing sent and nothing changed; no GET request with
    [currentPageSize=999&currentPage=1&filters.active=true] goes out. *)
Theorem getSiteClients_has_no_body w arg st :
  getSiteClients w arg st = (Raise IndentationError, st) ∧
  sent (snd (getSiteClients w arg st)) = sent st.
Proof. split; reflexivity. Qed.

(** ** Site settings *)

(** A call changes nothing of the state but the list of requests. *)
Lemma run_request_frame w v path params data js st out st' :
  run_request w v path params data js st = (out, st') →
  self st' = self st ∧ heap st' = heap st ∧ warned st' = warned st.
Proof.
  unfold run_request. intros Hrun.
  by destruct (baseurl (self st)); injection Hrun as <- <-.
Qed.

Lemma strip_beacon_clean v v' :
  strip_beacon v = Ret v' → py_contains "beaconControl" v' = Ret false.
Proof.
  unfold strip_beacon.
  destruct (py_contains "beaconControl" v) as [[]|] eqn:Hin; [| |done].
  - destruct v; try done. simpl.
    destruct (m !! "beaconControl"); [|done].
    intros [= <-]. simpl. by rewrite lookup_delete_eq.
  - by intros [= <-].
Qed.

Lemma strip_beacon_dict (m : gmap string json) :
  strip_beacon (JObj m) = Ret (JObj (delete "beaconControl" m)).
Proof.
  unfold strip_beacon. simpl.
  destruct (m !! "beaconControl") eqn:Hk; simpl.
  - reflexivity.
  - by rewrite delete_id.
Qed.

Lemma py_contains_dict (m : gmap string json) k :
  py_contains k (JObj m) = Ret false → m !! k = None.
Proof. simpl. by destruct (m !! k). Qed.

Lemma getSiteSettings_run w arg st :
  getSiteSettings w arg st =
  let run := run_request w GET
               ("/sites/" +:+ default (site (self st)) arg +:+ "/setting")
               JNull JNull JNull st in
  match fst run with
  | Raise e => (Raise e, snd run)
  | Ret result =>
      match py_contains "beaconControl" result with
      | Raise e => (Raise e, snd run)
      | Ret false => (Ret result, snd run)
      | Ret true =>
          (py_delitem result "beaconControl",
           if warnings (self (snd run)) then snd (warn BeaconWarning (snd run))
           else snd run)
      end
  end.
Proof.
  unfold getSiteSettings.
  destruct arg; run_accessor; simpl;
    (destruct (run_request _ _ _ _ _ _ _) as [[result|e] st1]; simpl; [|done];
     unfold lift, self_warnings;
     destruct (py_contains "beaconControl" result) as [[]|]; [|done|done];
     by destruct (warnings (self st1))).
Qed.

Lemma setSiteSettings_run w l arg st :
  setSiteSettings w l arg st =
  let path := "/sites/" +:+ default (site (self st)) arg +:+ "/setting" in
  match py_contains "beaconControl" (heap st l) with
  | Raise e => (Raise e, st)
  | Ret false => run_request w PATCH path JNull JNull (heap st l) st
  | Ret true =>
      let st1 := if warnings (self st) then snd (warn BeaconWarning st) else st in
      match py_delitem (heap st l) "beaconControl" with
      | Raise e => (Raise e, st1)
      | Ret v' =>
          run_request w PATCH path JNull JNull v' (snd (store l v' st1))
      end
  end.
Proof.
  unfold setSiteSettings.
  destruct arg; run_accessor; unfold load, lift, self_warnings; simpl;
    (destruct (py_contains "beaconControl" (heap st l)) as [[]|];
     [|by rewrite patch_run|done];
     destruct (warnings (self st)); simpl;
     (destruct (py_delitem (heap st l) "beaconControl"); [|done];
      simpl; by rewrite patch_run, fn_lookup_insert)).
Qed.

(** C4. A value that [getSiteSettings] returns does not contain
    [beaconControl]: the [in] test is false on it, and when it is a
    dictionary the key is absent.  The body of every request that
    [setSiteSettings] issues, a PATCH, does not contain it either. *)
Theorem beaconControl_stripped w arg st st' :
  (∀ v, getSiteSettings w arg st = (Ret v, st') →
        py_contains "beaconControl" v = Ret false ∧
        ∀ m, v = JObj m → m !! "beaconControl" = None)
  ∧ (∀ l out new,
        setSiteSettings w l arg st = (out, st') →
        sent st' = sent st ++ new →
        Forall (λ r, req_verb r = PATCH ∧
                     py_contains "beaconControl" (req_json r) = Ret false ∧
                     ∀ m, req_json r = JObj m → m !! "beaconControl" = None)
               new).
Proof.
  split.
  - intros v Hrun. rewrite getSiteSettings_run in Hrun. cbv zeta in Hrun.
    destruct (run_request _ _ _ _ _ _ _) as [[result|e] st1]; simpl in Hrun;
      [|done].
    assert (Hv : strip_beacon result = Ret v).
    { unfold strip_beacon.
      destruct (py_contains "beaconControl" result) as [[]|]; congruence. }
    apply strip_beacon_clean in Hv. split; [done|].
    intros m ->. by apply py_contains_dict.
  - intros l out new Hrun Hnew. rewrite setSiteSettings_run in Hrun.
    cbv zeta in Hrun.
    assert (Hbody : ∀ v st0,
      py_contains "beaconControl" v = Ret false →
      sent st0 = sent st →
      run_request w PATCH
        ("/sites/" +:+ default (site (self st)) arg +:+ "/setting")
        JNull JNull v st0 = (out, st') →
      Forall (λ r, req_verb r = PATCH ∧
                   py_contains "beaconControl" (req_json r) = Ret false ∧
                   ∀ m, req_json r = JObj m → m !! "beaconControl" = None)
             new).
    { intros v st0 Hv Hs0 Hreq. rewrite <- Hs0 in Hnew.
      pose proof (run_request_new _ _ _ _ _ _ _ _ _ _ Hreq Hnew) as Hshape.
      destruct (baseurl (self st0)); subst new; [|constructor].
      constructor; [|constructor]. simpl. repeat split; [done|].
      intros m ->. by apply py_contains_dict. }
    assert (Hnone : ∀ e st0, sent st0 = sent st →
                             (Raise e, st0) = (out, st') → new = []).
    { intros e st0 Hs0 [= <- <-]. rewrite Hs0 in Hnew.
      rewrite <- (app_nil_r (sent st)) in Hnew at 1.
      by apply app_inv_head in Hnew. }
    destruct (py_contains "beaconControl" (heap st l)) as [[]|] eqn:Hin.
    + pose proof (strip_beacon_clean (heap st l)) as Hclean.
      unfold strip_beacon in Hclean. rewrite Hin in Hclean.
      destruct (py_delitem (heap st l) "beaconControl") as [v'|e].
      * apply (Hbody v' _ (Hclean v' eq_refl)) in Hrun; [done|].
        by destruct (warnings (self st)).
      * assert (new = []) as ->; [|constructor].
        eapply Hnone; [|exact Hrun]. by destruct (warnings (self st)).
    + by apply (Hbody _ _ Hin eq_refl) in Hrun.
    + rewrite (Hnone e st eq_refl Hrun). constructor.
Qed.

Lemma beaconControl_stripped_witness :
  (py_contains "beaconControl" (JObj (delete "beaconControl" demo_settings))
     = Ret false ∧
   ∀ m, JObj (delete "beaconControl" demo_settings) = JObj m →
        m !! "beaconControl" = None)
  ∧ Forall (λ r, req_verb r = PATCH ∧
                 py_contains "beaconControl" (req_json r) = Ret false ∧
                 ∀ m, req_json r = JObj m → m !! "beaconControl" = None)
      (sent (snd (setSiteSettings (answering (JObj ok_empty)) 0 None
                    settings_state))).
Proof.
  split.
  - apply (proj1 (beaconControl_stripped
                    (answering (JObj (ok_with (JObj demo_settings)))) None
                    (fresh_state (explicit_omada (JStr "tk")))
                    (snd (getSiteSettings
                            (answering (JObj (ok_with (JObj demo_settings))))
                            None (fresh_state (explicit_omada (JStr "tk"))))))).
    vm_compute. reflexivity.
  - apply (proj2 (beaconControl_stripped (answering (JObj ok_empty)) None
                    settings_state
                    (snd (setSiteSettings (answering (JObj ok_empty)) 0 None
                            settings_state)))
             0 (fst (setSiteSettings (answering (JObj ok_empty)) 0 None
                       settings_state))).
    + apply surjective_pairing.
    + reflexivity.
Defined.

(** C10. [setSiteSettings] works on the caller's own settings object.
    When that object is a dictionary, after the call (whether it returned
    or raised) the object no longer has the key [beaconControl], every
    other key has the value it had, and no other object has changed. *)
Theorem setSiteSettings_mutates_argument w l arg st out st'
    (m : gmap string json) :
  heap st l = JObj m →
  setSiteSettings w l arg st = (out, st') →
  heap st' l = JObj (delete "beaconControl" m) ∧
  (∃ m', heap st' l = JObj m' ∧ m' !! "beaconControl" = None ∧
         ∀ k, k ≠ "beaconControl" → m' !! k = m !! k) ∧
  (∀ l', l' ≠ l → heap st' l' = heap st l').
Proof.
  intros Hl Hrun.
  assert (Hheap : ∀ l', heap st' l' =
                        <[l := JObj (delete "beaconControl" m)]> (heap st) l').
  { rewrite setSiteSettings_run in Hrun. cbv zeta in Hrun.
    rewrite Hl in Hrun. simpl in Hrun.
    destruct (m !! "beaconControl") as [x|] eqn:Hk; simpl in Hrun.
    - apply run_request_frame in Hrun as (_ & -> & _).
      by destruct (warnings (self st)).
    - apply run_request_frame in Hrun as (_ & -> & _).
      rewrite delete_id by done. rewrite <- Hl. intros l'.
      destruct (decide (l = l')) as [->|Hne].
      + by rewrite fn_lookup_insert.
      + by rewrite fn_lookup_insert_ne. }
  split; [|split].
  - by rewrite Hheap, fn_lookup_insert.
  - exists (delete "beaconControl" m). rewrite Hheap, fn_lookup_insert.
    split; [done|]. split; [apply lookup_delete_eq|].
    intros k Hk. by apply lookup_delete_ne.
  - intros l' Hne. by rewrite Hheap, fn_lookup_insert_ne.
Qed.

Lemma setSiteSettings_mutates_argument_witness :
  heap (snd (setSiteSettings (answering (JObj ok_empty)) 0 None settings_state)) 0
    = JObj (delete "beaconControl" demo_settings) ∧
  (∃ m', heap (snd (setSiteSettings (answering (JObj ok_empty)) 0 None
                      settings_state)) 0 = JObj m' ∧
         m' !! "beaconControl" = None ∧
         ∀ k, k ≠ "beaconControl" → m' !! k = demo_settings !! k) ∧
  (∀ l', l' ≠ 0 →
         heap (snd (setSiteSettings (answering (JObj ok_empty)) 0 None
                      settings_state)) l' = heap settings_state l').
Proof.
  apply (setSiteSettings_mutates_argument (answering (JObj ok_empty)) 0 None
           settings_state
           (fst (setSiteSettings (answering (JObj ok_empty)) 0 None
                   settings_state))).
  - reflexivity.
  - apply surjective_pairing.
Defined.

(** ** The unwrapping of [data], endpoint by endpoint *)

Lemma succeeded_result w v path params data js st out st' st'' res :
  run_request w v path params data js st = (out, st') →
  sent st'' = sent st' →
  succeeded w st st'' res →
  out = Ret res.
Proof.
  intros Hrun Hsent (m & c & Hrecv & Hc & Hz & Hres).
  assert (Hrecv' : received w st st' (JObj m)).
  { destruct Hrecv as (r & resp & Hs & H). exists r, resp. by rewrite <- Hsent. }
  rewrite (run_request_received _ _ _ _ _ _ _ _ _ _ Hrun Hrecv').
  rewrite (unwrap_envelope_success m c Hc Hz). by rewrite Hres.
Qed.

Ltac run_direct f :=
  unfold f;
  first [ reflexivity
        | match goal with |- context [match ?a with Some _ => _ | None => _ end] =>
            destruct a; by run_accessor
          end
        | by run_accessor ].

Lemma getPortalCandidates_run w arg st :
  getPortalCandidates w arg st =
  run_request w GET
    ("/sites/" +:+ default (site (self st)) arg +:+ "/setting/portal/candidates")
    JNull JNull JNull st.
Proof. run_direct getPortalCandidates. Qed.

Lemma getRadiusProfiles_run w arg st :
  getRadiusProfiles w arg st =
  run_request w GET
    ("/sites/" +:+ default (site (self st)) arg +:+ "/setting/radiusProfiles")
    JNull JNull JNull st.
Proof. run_direct getRadiusProfiles. Qed.

Lemma getScenarios_run w st :
  getScenarios w st = run_request w GET "/scenarios" JNull JNull JNull st.
Proof. unfold getScenarios. apply get_run. Qed.

Lemma getSiteDevices_run w arg st :
  getSiteDevices w arg st =
  run_request w GET ("/sites/" +:+ default (site (self st)) arg +:+ "/devices")
    JNull JNull JNull st.
Proof. run_direct getSiteDevices. Qed.

Lemma getTimeRanges_run w arg st :
  getTimeRanges w arg st =
  run_request w GET
    ("/sites/" +:+ default (site (self st)) arg +:+ "/setting/profiles/timeranges")
    JNull JNull JNull st.
Proof. run_direct getTimeRanges. Qed.

Ltac run_indexed :=
  run_accessor; unfold then_data, lift;
  by destruct (run_request _ _ _ _ _ _ _) as [[?|?] ?].

Lemma getSiteGroups_run w arg ty st :
  getSiteGroups w arg ty st =
  then_data
    (run_request w GET
       ("/sites/" +:+ default (site (self st)) arg +:+ "/setting/profiles/groups"
          +:+ match ty with Some t => "/" +:+ str_of_int t | None => "" end)
       JNull JNull JNull st).
Proof.
  unfold getSiteGroups.
  destruct arg, ty; simpl default;
    rewrite ?append_assoc;
    change ("/setting/profiles/groups" +:+ "") with "/setting/profiles/groups";
    change ("/setting/profiles/groups" +:+ "/" +:+ ?x)
      with ("/setting/profiles/groups/" +:+ x);
    run_indexed.
Qed.

Lemma getWirelessGroups_run w arg st :
  getWirelessGroups w arg st =
  then_data
    (run_request w GET
       ("/sites/" +:+ default (site (self st)) arg +:+ "/setting/wlans")
       JNull JNull JNull st).
Proof. unfold getWirelessGroups. destruct arg; run_indexed. Qed.

Lemma getWirelessNetworks_run w group arg st :
  getWirelessNetworks w group arg st =
  then_data
    (run_request w GET
       ("/sites/" +:+ default (site (self st)) arg +:+ "/setting/wlans/"
          +:+ group +:+ "/ssids")
       JNull JNull JNull st).
Proof. unfold getWirelessNetworks. destruct arg; run_indexed. Qed.


(** On an instance with a base URL, a call that the controller answers
    with a successful envelope returns what is under [result]. *)
Lemma run_request_answered w v path params data js st b
    (m : gmap string json) c :
  baseurl (self st) = Some b →
  answers_with w m →
  m !! "errorCode" = Some c → py_eq_zero c = true →
  fst (run_request w v path params data js st)
  = Ret (default JNull (m !! "result")).
Proof.
  intros Hb Hans Hc Hz. unfold run_request. rewrite Hb. simpl.
  destruct (Hans (request_of w (self st) b v path params data js))
    as (resp & -> & Hok & Hbody).
  unfold unwrap_reply. rewrite Hok, Hbody.
  apply (unwrap_envelope_success m c Hc Hz).
Qed.

Lemma then_data_answered w v path params data js st b
    (m : gmap string json) c :
  baseurl (self st) = Some b →
  answers_with w m →
  m !! "errorCode" = Some c → py_eq_zero c = true →
  fst (then_data (run_request w v path params data js st))
  = py_getitem (default JNull (m !! "result")) "data".
Proof.
  intros Hb Hans Hc Hz. unfold then_data.
  rewrite (run_request_answered w v path params data js st b m c Hb Hans Hc Hz).
  reflexivity.
Qed.

(** C8, where the code departs from it in one row.  On an instance with a
    base URL, when the controller answers with a successful envelope whose
    [result] is [res]: [getSiteGroups], [getWirelessGroups] and
    [getWirelessNetworks] return [res['data']]; [getPortalCandidates],
    [getRadiusProfiles], [getScenarios], [getSiteDevices] and
    [getTimeRanges] return [res] as it is, whether or not it has a [data]
    key; [getSiteSettings] returns the dictionary [res] with its keys,
    [data] included, less [beaconControl].  [getSiteClients] returns
    nothing: its [def] has no body and the call ends in
    [IndentationError]. *)
Theorem data_unwrapping_table w st b (m : gmap string json) c res :
  baseurl (self st) = Some b →
  answers_with w m →
  m !! "errorCode" = Some c →
  py_eq_zero c = true →
  m !! "result" = Some res →
  (∀ arg ty, fst (getSiteGroups w arg ty st) = py_getitem res "data") ∧
  (∀ arg, fst (getWirelessGroups w arg st) = py_getitem res "data") ∧
  (∀ group arg,
     fst (getWirelessNetworks w group arg st) = py_getitem res "data") ∧
  (∀ arg, fst (getPortalCandidates w arg st) = Ret res) ∧
  (∀ arg, fst (getRadiusProfiles w arg st) = Ret res) ∧
  fst (getScenarios w st) = Ret res ∧
  (∀ arg, fst (getSiteDevices w arg st) = Ret res) ∧
  (∀ arg, fst (getTimeRanges w arg st) = Ret res) ∧
  (∀ arg (mr : gmap string json),
     res = JObj mr →
     fst (getSiteSettings w arg st) = Ret (JObj (delete "beaconControl" mr)) ∧
     (mr !! "beaconControl" = None → fst (getSiteSettings w arg st) = Ret res)) ∧
  (∀ arg, fst (getSiteClients w arg st) = Raise IndentationError).
Proof.
  intros Hb Hans Hc Hz Hres.
  assert (Hrun : ∀ v path params data js,
            fst (run_request w v path params data js st) = Ret res).
  { intros. rewrite (run_request_answered _ _ _ _ _ _ _ b m c Hb Hans Hc Hz).
    by rewrite Hres. }
  assert (Hdata : ∀ v path params data js,
            fst (then_data (run_request w v path params data js st))
            = py_getitem res "data").
  { intros. rewrite (then_data_answered _ _ _ _ _ _ _ b m c Hb Hans Hc Hz).
    by rewrite Hres. }
  repeat match goal with |- _ ∧ _ => split end.
  - intros arg ty. rewrite getSiteGroups_run. apply Hdata.
  - intros arg. rewrite getWirelessGroups_run. apply Hdata.
  - intros group arg. rewrite getWirelessNetworks_run. apply Hdata.
  - intros arg. rewrite getPortalCandidates_run. apply Hrun.
  - intros arg. rewrite getRadiusProfiles_run. apply Hrun.
  - rewrite getScenarios_run. apply Hrun.
  - intros arg. rewrite getSiteDevices_run. apply Hrun.
  - intros arg. rewrite getTimeRanges_run. apply Hrun.
  - intros arg mr ->.
    assert (Hdel : fst (getSiteSettings w arg st)
                   = Ret (JObj (delete "beaconControl" mr))).
    { rewrite getSiteSettings_run. cbv zeta.
      pose proof (Hrun GET
                    ("/sites/" +:+ default (site (self st)) arg +:+ "/setting")
                    JNull JNull JNull) as Hget.
      destruct (run_request _ _ _ _ _ _ _) as [o st1]. simpl in Hget.
      subst o. simpl.
      pose proof (strip_beacon_dict mr) as Hstrip.
      unfold strip_beacon in Hstrip. simpl in Hstrip.
      by destruct (bool_decide (is_Some (mr !! "beaconControl"))). }
    split; [done|]. intros Hnone. by rewrite Hdel, delete_id.
  - reflexivity.
Qed.


Lemma answering_answers (m : gmap string json) :
  answers_with (answering (JObj m)) m.
Proof. intros r. by eexists. Qed.

Lemma data_unwrapping_table_witness :
  fst (getSiteGroups (answering (JObj (ok_with (JObj demo_table)))) None
         (Some MACGroup) (fresh_state (explicit_omada (JStr "tk"))))
    = Ret (JArr [JStr "guests"; JStr "printers"]) ∧
  fst (getWirelessGroups (answering (JObj (ok_with (JObj demo_table))))
         (Some "Lab") (fresh_state (explicit_omada (JStr "tk"))))
    = Ret (JArr [JStr "guests"; JStr "printers"]) ∧
  fst (getWirelessNetworks (answering (JObj (ok_with (JObj demo_table))))
         "5f1a" None (fresh_state (explicit_omada (JStr "tk"))))
    = Ret (JArr [JStr "guests"; JStr "printers"]) ∧
  fst (getPortalCandidates (answering (JObj (ok_with (JObj demo_table))))
         None (fresh_state (explicit_omada (JStr "tk"))))
    = Ret (JObj demo_table) ∧
  fst (getRadiusProfiles (answering (JObj (ok_with (JObj demo_table))))
         None (fresh_state (explicit_omada (JStr "tk"))))
    = Ret (JObj demo_table) ∧
  fst (getScenarios (answering (JObj (ok_with (JObj demo_table))))
         (fresh_state (explicit_omada (JStr "tk"))))
    = Ret (JObj demo_table) ∧
  fst (getSiteDevices (answering (JObj (ok_with (JObj demo_table))))
         (Some "Lab") (fresh_state (explicit_omada (JStr "tk"))))
    = Ret (JObj demo_table) ∧
  fst (getTimeRanges (answering (JObj (ok_with (JObj demo_table))))
         None (fresh_state (explicit_omada (JStr "tk"))))
    = Ret (JObj demo_table) ∧
  fst (getSiteSettings (answering (JObj (ok_with (JObj demo_table))))
         None (fresh_state (explicit_omada (JStr "tk"))))
    = Ret (JObj (delete "beaconControl" demo_table)) ∧
  fst (getSiteClients (answering (JObj (ok_with (JObj demo_table))))
         None (fresh_state (explicit_omada (JStr "tk"))))
    = Raise IndentationError.
Proof.
  destruct (data_unwrapping_table
              (answering (JObj (ok_with (JObj demo_table))))
              (fresh_state (explicit_omada (JStr "tk")))
              "https://omada:8043" (ok_with (JObj demo_table)) (JNum 0)
              (JObj demo_table)
              eq_refl (answering_answers _) eq_refl eq_refl eq_refl)
    as (Hgroups & Hwlans & Hssids & Hportal & Hradius & Hscen & Hdev & Htime
        & Hset & Hclients).
  repeat match goal with |- _ ∧ _ => split end.
  - exact (Hgroups None (Some MACGroup)).
  - exact (Hwlans (Some "Lab")).
  - exact (Hssids "5f1a" None).
  - exact (Hportal None).
  - exact (Hradius None).
  - exact Hscen.
  - exact (Hdev (Some "Lab")).
  - exact (Htime None).
  - exact (proj1 (Hset None demo_table eq_refl)).
  - exact (Hclients None).
Defined.

(** ** Logging in and out *)

Lemma login_run w username password st :
  login w username password st =
  match credentials (self st) username password with
  | Raise e => (Raise e, st)
  | Ret (u, p) =>
      let run := run_request w POST "/login" JNull JNull
                   (JObj {[ "username" := u; "password" := p ]}) st in
      match fst run with
      | Raise e => (Raise e, snd run)
      | Ret result =>
          match py_getitem result "token" with
          | Raise e => (Raise e, snd run)
          | Ret t => (Ret result, snd (set_token t (snd run)))
          end
      end
  end.
Proof.
  unfold login, credentials, mbind, M_bind, mret, M_ret, this, lift, raise.
  cbn beta iota.
  destruct (is_None username && is_None password); simpl.
  - destruct (config (self st)) as [cfg|]; [|done].
    destruct (cfg_section cfg "omada") as [sec|]; [|done].
    destruct (cfg_get sec "username") as [u|]; [|done].
    destruct (cfg_get sec "password") as [p|]; [|done].
    rewrite post_run.
    destruct (run_request _ _ _ _ _ _ _) as [[result|] st1]; [|done].
    simpl. by destruct (py_getitem result "token").
  - rewrite post_run.
    destruct (run_request _ _ _ _ _ _ _) as [[result|] st1]; [|done].
    simpl. by destruct (py_getitem result "token").
Qed.

Lemma getCurrentUser_run w st :
  getCurrentUser w st =
  run_request w GET "/users/current" JNull JNull JNull st.
Proof. unfold getCurrentUser. apply get_run. Qed.




(** With no arguments and no configuration, [login] raises before anything
    is sent. *)
Lemma login_without_config w st :
  config (self st) = None →
  login w JNull JNull st = (Raise TypeError, st).
Proof. intros Hc. rewrite login_run. unfold credentials. by rewrite Hc. Qed.

(** Once the credentials are settled, an instance with a base URL sends
    them in one POST to [/login], whatever comes back. *)
Lemma login_sent w username password st b u p :
  credentials (self st) username password = Ret (u, p) →
  baseurl (self st) = Some b →
  sent (snd (login w username password st)) =
  sent st ++ [request_of w (self st) b POST "/login" JNull JNull
                (JObj {[ "username" := u; "password" := p ]})].
Proof.
  intros Hcred Hb. rewrite login_run, Hcred. cbv zeta.
  destruct (run_request _ _ _ _ _ _ _) as [o st1] eqn:Hrun.
  destruct (run_request_sent _ _ _ _ _ _ _ _ _ _ Hb Hrun) as [-> _].
  simpl. destruct o as [res|]; [|done].
  by destruct (py_getitem res "token").
Qed.

(** With no arguments, the credentials are the two options of the [omada]
    section of the configuration, as [section.get] gives them. *)
Lemma login_falls_back (o : Omada) cfg sec u p :
  config o = Some cfg →
  cfg !! "omada" = Some sec →
  cfg_get sec "username" = Ret u →
  cfg_get sec "password" = Ret p →
  credentials o JNull JNull = Ret (u, p).
Proof.
  intros Hc Hsec Hu Hp. unfold credentials, cfg_section.
  by rewrite Hc, Hsec, Hu, Hp.
Qed.

(** C5, where the code departs from it.  The instance is the one built
    from a configuration file that has a base URL and no [username] or
    [password].  [login()] without arguments does not raise before
    sending: it issues the POST to [/login] with both credentials
    [None]. *)
Theorem login_sends_missing_credentials :
  Omada_init bare_files "omada.cfg" None "Default" true true = Ret bare_omada
  ∧ ∀ w, sent (snd (login w JNull JNull (fresh_state bare_omada))) =
         [ {| req_verb := POST;
              req_url := "https://omada:8043/api/v2/login";
              req_params := JNull; req_data := JNull;
              req_json := JObj {[ "username" := JNull;
                                  "password" := JNull ]} |} ].
Proof.
  split; [vm_compute; reflexivity|].
  intros w.
  rewrite (login_sent w JNull JNull (fresh_state bare_omada)
             "https://omada:8043" JNull JNull); [reflexivity| |reflexivity].
  vm_compute. reflexivity.
Qed.

(** C9, where the code departs from it.  [logout] returns what [post]
    returns: when the envelope of a successful logout has a [result], that
    value comes back, and not [None]. *)
Theorem logout_returns_the_result :
  fst (logout (answering (JObj (ok_with demo_user)))
         (fresh_state (explicit_omada (JStr "tk"))))
    = Ret demo_user
  ∧ Ret demo_user ≠ Ret JNull.
Proof. split; [vm_compute; reflexivity | discriminate]. Qed.

(** When the envelope of a successful logout has no [result], [logout]
    returns [None]. *)
Lemma logout_without_result w st out st' (m : gmap string json) c :
  logout w st = (out, st') →
  received w st st' (JObj m) →
  m !! "errorCode" = Some c → py_eq_zero c = true →
  m !! "result" = None →
  out = Ret JNull.
Proof.
  unfold logout. rewrite post_run. intros Hrun Hrecv Hc Hz Hnone.
  rewrite (run_request_received _ _ _ _ _ _ _ _ _ _ Hrun Hrecv).
  rewrite (unwrap_envelope_success m c Hc Hz). by rewrite Hnone.
Qed.

(** ** Transport failures and malformed envelopes *)

(** What a call returns is what the reply to its request unwraps to. *)
Lemma run_request_reply w v path params data js st out st' r :
  run_request w v path params data js st = (out, st') →
  sent st' = sent st ++ [r] →
  out = unwrap_reply (server w r).
Proof.
  unfold run_request. intros Hrun Hsent.
  destruct (baseurl (self st)) as [b|]; injection Hrun as <- <-.
  - simpl in Hsent. apply app_inv_head in Hsent. by injection Hsent as <-.
  - by apply app_singleton_self in Hsent.
Qed.

(** X1. When the response to the request of [get], [post] or [patch] has
    a status from 400 to 599, the call raises [HTTPError] with that status
    whatever the body says, a successful envelope included; with another
    status and a body that is not JSON it raises [JSONDecodeError]. *)
Theorem http_error_raised_first f w path params data js st out st' r resp :
  f ∈ [get; post; patch] →
  f w path params data js st = (out, st') →
  sent st' = sent st ++ [r] →
  server w r = Some resp →
  ((400 ≤ status_code resp < 600)%Z → out = Raise (HTTPError (status_code resp)))
  ∧ (¬ (400 ≤ status_code resp < 600)%Z → body resp = None →
     out = Raise JSONDecodeError).
Proof.
  intros Hf Hrun Hsent Hsrv.
  destruct (primitive_run f w path params data js st Hf) as [v Hv].
  rewrite Hv in Hrun.
  rewrite (run_request_reply _ _ _ _ _ _ _ _ _ _ Hrun Hsent), Hsrv.
  unfold unwrap_reply, http_error. split.
  - intros [Hlo Hhi].
    apply Z.leb_le in Hlo. apply Z.ltb_lt in Hhi. by rewrite Hlo, Hhi.
  - intros Hout Hbody.
    destruct ((400 <=? status_code resp)%Z && (status_code resp <? 600)%Z)
      eqn:Hs; [|by rewrite Hbody].
    apply andb_true_iff in Hs as [Hlo%Z.leb_le Hhi%Z.ltb_lt]. lia.
Qed.

Lemma http_error_raised_first_witness :
  fst (get (replying 503 (Some (JObj (ok_with demo_user)))) "/users/current"
         JNull JNull JNull (fresh_state (explicit_omada (JStr "tk"))))
    = Raise (HTTPError 503).
Proof.
  destruct (http_error_raised_first get
              (replying 503 (Some (JObj (ok_with demo_user)))) "/users/current"
              JNull JNull JNull (fresh_state (explicit_omada (JStr "tk")))
              (fst (get (replying 503 (Some (JObj (ok_with demo_user))))
                      "/users/current" JNull JNull JNull
                      (fresh_state (explicit_omada (JStr "tk")))))
              (snd (get (replying 503 (Some (JObj (ok_with demo_user))))
                      "/users/current" JNull JNull JNull
                      (fresh_state (explicit_omada (JStr "tk")))))
              (request_of (replying 503 (Some (JObj (ok_with demo_user))))
                 (explicit_omada (JStr "tk")) "https://omada:8043" GET
                 "/users/current" JNull JNull JNull)
              {| status_code := 503; body := Some (JObj (ok_with demo_user)) |})
    as [Herr _].
  - apply list_elem_of_here.
  - apply surjective_pairing.
  - vm_compute. reflexivity.
  - reflexivity.
  - apply Herr. simpl. lia.
Defined.

(** X2. Query parameters that the caller passes go out as they are, and
    so do [data] and [json]: nothing is injected when [params] is given,
    also on an instance that holds a token; and nothing is injected when
    there is no token. *)
Theorem explicit_params_untouched f w path params data js st out st' new :
  f ∈ [get; post; patch] →
  params ≠ JNull ∨ token (self st) = JNull →
  f w path params data js st = (out, st') →
  sent st' = sent st ++ new →
  Forall (λ r, req_params r = params ∧ req_data r = data ∧ req_json r = js) new.
Proof.
  intros Hf Hp Hrun Hnew.
  destruct (primitive_run f w path params data js st Hf) as [v Hv].
  rewrite Hv in Hrun.
  pose proof (run_request_new _ _ _ _ _ _ _ _ _ _ Hrun Hnew) as Hshape.
  destruct (baseurl (self st)) as [b|]; subst new; [|constructor].
  constructor; [|constructor]. simpl. repeat split.
  unfold sent_params. destruct Hp as [Hp | ->].
  - by rewrite (is_None_false _ Hp).
  - by rewrite andb_false_r.
Qed.

Lemma explicit_params_untouched_witness :
  Forall (λ r, req_params r = JObj {[ "page" := JNum 2 ]} ∧
               req_data r = JNull ∧ req_json r = JNull)
    (sent (snd (get (answering (JObj ok_empty)) "/scenarios"
                  (JObj {[ "page" := JNum 2 ]}) JNull JNull
                  (fresh_state (explicit_omada (JStr "tk")))))).
Proof.
  apply (explicit_params_untouched get (answering (JObj ok_empty)) "/scenarios"
           (JObj {[ "page" := JNum 2 ]}) JNull JNull
           (fresh_state (explicit_omada (JStr "tk")))
           (fst (get (answering (JObj ok_empty)) "/scenarios"
                   (JObj {[ "page" := JNum 2 ]}) JNull JNull
                   (fresh_state (explicit_omada (JStr "tk")))))
           (snd (get (answering (JObj ok_empty)) "/scenarios"
                   (JObj {[ "page" := JNum 2 ]}) JNull JNull
                   (fresh_state (explicit_omada (JStr "tk")))))).
  - apply list_elem_of_here.
  - left. discriminate.
  - apply surjective_pairing.
  - reflexivity.
Defined.

(** X3. A body that parses but is no envelope makes [get], [post] and
    [patch] raise before anything is unwrapped: [KeyError] for
    [errorCode] when the body is a dictionary without that key,
    [TypeError] when it is not a dictionary at all. *)
Theorem body_without_errorCode f w path params data js st out st' env :
  f ∈ [get; post; patch] →
  f w path params data js st = (out, st') →
  received w st st' env →
  (∀ m, env = JObj m → m !! "errorCode" = None) →
  out = match env with
        | JObj _ => Raise (KeyError "errorCode")
        | _ => Raise TypeError
        end.
Proof.
  intros Hf Hrun Hrecv Hno.
  destruct (primitive_run f w path params data js st Hf) as [v Hv].
  rewrite Hv in Hrun.
  rewrite (run_request_received _ _ _ _ _ _ _ _ _ _ Hrun Hrecv).
  unfold unwrap_envelope. destruct env; try reflexivity.
  simpl. by rewrite (Hno m eq_refl).
Qed.

Lemma body_without_errorCode_witness :
  fst (post (answering (JObj {[ "result" := demo_user ]})) "/logout"
         JNull JNull JNull (fresh_state (explicit_omada JNull)))
    = Raise (KeyError "errorCode").
Proof.
  apply (body_without_errorCode post
           (answering (JObj {[ "result" := demo_user ]})) "/logout"
           JNull JNull JNull (fresh_state (explicit_omada JNull))
           _ (snd (post (answering (JObj {[ "result" := demo_user ]})) "/logout"
                     JNull JNull JNull (fresh_state (explicit_omada JNull))))
           (JObj {[ "result" := demo_user ]})).
  - apply list_elem_of_further, list_elem_of_here.
  - apply surjective_pairing.
  - exists (request_of (answering (JObj {[ "result" := demo_user ]}))
              (explicit_omada JNull) "https://omada:8043" POST "/logout"
              JNull JNull JNull),
      {| status_code := 200; body := Some (JObj {[ "result" := demo_user ]}) |}.
    repeat split; vm_compute; reflexivity.
  - intros m [= <-]. vm_compute. reflexivity.
Defined.

(** ** Construction *)

Lemma Omada_init_explicit files name b s v wn o :
  Omada_init files name (Some b) s v wn = Ret o →
  o = {| config := None; token := JNull; baseurl := Some b; site := s;
         verify := v; warnings := wn |}.
Proof. by intros [= <-]. Qed.

(** What the constructor read when it returns an instance built from the
    configuration file. *)
Lemma Omada_init_file files name s v wn o :
  Omada_init files name None s v wn = Ret o →
  ∃ cfg sec,
    files name = Some (Ret cfg) ∧ cfg !! "omada" = Some sec ∧
    config o = Some cfg ∧ token o = JNull ∧
    section_get sec "baseurl" = Ret (baseurl o) ∧
    section_get_fallback sec "site" "Default" = Ret (site o) ∧
    getboolean sec "verify" true = Ret (verify o) ∧
    getboolean sec "warnings" true = Ret (warnings o).
Proof.
  unfold Omada_init, cfg_section.
  destruct (files name) as [[cfg|]|]; [|done|done].
  destruct (cfg !! "omada") as [sec|] eqn:Hsec; [|done].
  destruct (section_get sec "baseurl") as [b|] eqn:Hb; [|done].
  destruct (section_get_fallback sec "site" "Default") as [s0|] eqn:Hsite;
    [|done].
  destruct (getboolean sec "verify" true) as [v0|] eqn:Hv; [|done].
  destruct (getboolean sec "warnings" true) as [wn0|] eqn:Hwn; [|done].
  intros [= <-]. exists cfg, sec. by repeat split.
Qed.

(** The instance the constructor returns when the file is read and the
    four options can be read from its [omada] section. *)
Lemma Omada_init_file_ok files name s v wn cfg sec b s0 v0 wn0 :
  files name = Some (Ret cfg) →
  cfg !! "omada" = Some sec →
  section_get sec "baseurl" = Ret b →
  section_get_fallback sec "site" "Default" = Ret s0 →
  getboolean sec "verify" true = Ret v0 →
  getboolean sec "warnings" true = Ret wn0 →
  Omada_init files name None s v wn =
  Ret {| config := Some cfg; token := JNull; baseurl := b; site := s0;
         verify := v0; warnings := wn0 |}.
Proof.
  intros Hfile Hsec Hb Hsite Hv Hwn. unfold Omada_init, cfg_section.
  by rewrite Hfile, Hsec, Hb, Hsite, Hv, Hwn.
Qed.

Lemma Omada_init_token files name ob s v wn o :
  Omada_init files name ob s v wn = Ret o → token o = JNull.
Proof.
  destruct ob as [b|].
  - by intros ->%Omada_init_explicit.
  - intros Hinit. by destruct (Omada_init_file _ _ _ _ _ _ Hinit)
                       as (cfg & sec & _ & _ & _ & ? & _).
Qed.

(** X4. An instance built with an explicit base URL has no configuration,
    whatever the configuration file holds: [login()] without arguments on
    it raises [TypeError] and sends nothing, also when the file has
    credentials. *)
Theorem explicit_baseurl_ignores_config files name b s v wn o w st :
  Omada_init files name (Some b) s v wn = Ret o →
  self st = o →
  config o = None ∧ login w JNull JNull st = (Raise TypeError, st).
Proof.
  intros Hinit Hself. apply Omada_init_explicit in Hinit. subst o.
  split; [done|].
  apply login_without_config. by rewrite Hself.
Qed.

Lemma explicit_baseurl_ignores_config_witness :
  config (explicit_omada JNull) = None ∧
  login (answering (JObj (ok_with demo_login_result))) JNull JNull
    (fresh_state (explicit_omada JNull))
  = (Raise TypeError, fresh_state (explicit_omada JNull)).
Proof.
  apply (explicit_baseurl_ignores_config full_files "omada.cfg"
           "https://omada:8043" "Default" true true).
  - reflexivity.
  - reflexivity.
Defined.

(** X5. A newly built instance holds no token, from whichever source it
    was configured: a request made on it without query parameters goes
    out with none. *)
Theorem new_instance_sends_no_token files name ob s v wn o f w path data js
    st out st' new :
  Omada_init files name ob s v wn = Ret o →
  self st = o →
  f ∈ [get; post; patch] →
  f w path JNull data js st = (out, st') →
  sent st' = sent st ++ new →
  token o = JNull ∧ Forall (λ r, req_params r = JNull) new.
Proof.
  intros Hinit Hself Hf Hrun Hnew.
  apply Omada_init_token in Hinit. split; [done|].
  destruct (primitive_run f w path JNull data js st Hf) as [vb Hv].
  rewrite Hv in Hrun.
  pose proof (run_request_new _ _ _ _ _ _ _ _ _ _ Hrun Hnew) as Hshape.
  destruct (baseurl (self st)) as [b|]; subst new; [|constructor].
  constructor; [|constructor]. simpl. unfold sent_params.
  by rewrite Hself, Hinit.
Qed.

Lemma new_instance_sends_no_token_witness :
  token bare_omada = JNull ∧
  Forall (λ r, req_params r = JNull)
    (sent (snd (get (answering (JObj ok_empty)) "/loginStatus" JNull JNull JNull
                  (fresh_state bare_omada)))).
Proof.
  apply (new_instance_sends_no_token bare_files "omada.cfg" None "Default"
           true true bare_omada get (answering (JObj ok_empty)) "/loginStatus"
           JNull JNull (fresh_state bare_omada)
           (fst (get (answering (JObj ok_empty)) "/loginStatus" JNull JNull JNull
                   (fresh_state bare_omada)))
           (snd (get (answering (JObj ok_empty)) "/loginStatus" JNull JNull JNull
                   (fresh_state bare_omada)))).
  - vm_compute. reflexivity.
  - reflexivity.
  - apply list_elem_of_here.
  - apply surjective_pairing.
  - reflexivity.
Defined.

(** X6. A configuration file whose [omada] section has no [baseurl] does
    not stop the constructor.  When the file is read and the other three
    options can be read from the section, the constructor returns the
    instance with the base URL [None]; on that instance every call of
    [get], [post] and [patch] raises [TypeError] while building the URL,
    sends nothing and changes nothing. *)
Theorem config_without_baseurl files name s v wn cfg sec s0 v0 wn0 :
  files name = Some (Ret cfg) →
  cfg !! "omada" = Some sec →
  sec !! "baseurl" = None →
  section_get_fallback sec "site" "Default" = Ret s0 →
  getboolean sec "verify" true = Ret v0 →
  getboolean sec "warnings" true = Ret wn0 →
  Omada_init files name None s v wn =
    Ret {| config := Some cfg; token := JNull; baseurl := None; site := s0;
           verify := v0; warnings := wn0 |}
  ∧ ∀ f w path params data js st,
      f ∈ [get; post; patch] →
      self st = {| config := Some cfg; token := JNull; baseurl := None;
                   site := s0; verify := v0; warnings := wn0 |} →
      f w path params data js st = (Raise TypeError, st).
Proof.
  intros Hfile Hsec Hb Hsite Hv Hwn. split.
  - apply (Omada_init_file_ok _ _ _ _ _ _ sec); try done.
    unfold section_get. by rewrite Hb.
  - intros f w path params data js st Hf Hself.
    destruct (primitive_run f w path params data js st Hf) as [vb ->].
    apply run_request_no_baseurl. by rewrite Hself.
Qed.

Lemma config_without_baseurl_witness :
  Omada_init siteonly_files "omada.cfg" None "Default" false false =
    Ret {| config := Some siteonly_config; token := JNull; baseurl := None;
           site := "Office"; verify := true; warnings := true |}
  ∧ ∀ f w path params data js st,
      f ∈ [get; post; patch] →
      self st = {| config := Some siteonly_config; token := JNull;
                   baseurl := None; site := "Office"; verify := true;
                   warnings := true |} →
      f w path params data js st = (Raise TypeError, st).
Proof.
  apply (config_without_baseurl siteonly_files "omada.cfg" "Default" false false
           siteonly_config {[ "site" := Ret "Office" ]}).
  - reflexivity.
  - reflexivity.
  - reflexivity.
  - reflexivity.
  - reflexivity.
  - reflexivity.
Defined.

(** X7. What the constructor does without an explicit base URL, case by
    case.  A name that is no regular file gives [FileNotFoundError] with
    that name; an exception that [config.read] raises on the file goes to
    the caller unchanged; a file read without an [omada] section gives
    [KeyError] for [omada].  An instance comes back only when the file was
    read and [baseurl], [site], [verify] and [warnings] could all be read
    from its [omada] section: it then holds the parser, no token, and
    those four values. *)
Theorem constructor_errors files name s v wn :
  (files name = None →
   Omada_init files name None s v wn = Raise (FileNotFoundError name)) ∧
  (∀ e, files name = Some (Raise e) →
        Omada_init files name None s v wn = Raise e) ∧
  (∀ cfg, files name = Some (Ret cfg) → cfg !! "omada" = None →
          Omada_init files name None s v wn = Raise (KeyError "omada")) ∧
  (∀ o, Omada_init files name None s v wn = Ret o →
        ∃ cfg sec,
          files name = Some (Ret cfg) ∧ cfg !! "omada" = Some sec ∧
          config o = Some cfg ∧ token o = JNull ∧
          section_get sec "baseurl" = Ret (baseurl o) ∧
          section_get_fallback sec "site" "Default" = Ret (site o) ∧
          getboolean sec "verify" true = Ret (verify o) ∧
          getboolean sec "warnings" true = Ret (warnings o)).
Proof.
  repeat match goal with |- _ ∧ _ => split end.
  - intros Hfile. unfold Omada_init. by rewrite Hfile.
  - intros e Hfile. unfold Omada_init. by rewrite Hfile.
  - intros cfg Hfile Hsec. unfold Omada_init, cfg_section.
    by rewrite Hfile, Hsec.
  - apply Omada_init_file.
Qed.

Lemma constructor_errors_witness :
  Omada_init (λ _, Some (Raise (ConfigparserError "MissingSectionHeaderError")))
    "omada.cfg" None "Default" true true
  = Raise (ConfigparserError "MissingSectionHeaderError").
Proof.
  apply (proj1 (proj2 (constructor_errors
                         (λ _, Some (Raise (ConfigparserError
                                              "MissingSectionHeaderError")))
                         "omada.cfg" "Default" true true))).
  reflexivity.
Defined.

(** ** The session *)

(** X8. A [login] that raises, for whatever reason (no credentials, a
    transport failure, a domain error, a result without a token), leaves
    the instance as it was, the stored token included, and the caller's
    objects too. *)
Theorem failed_login_keeps_instance w username password st e st' :
  login w username password st = (Raise e, st') →
  self st' = self st ∧ heap st' = heap st.
Proof.
  rewrite login_run.
  destruct (credentials (self st) username password) as [[u p]|];
    [|by intros [= _ <-]].
  cbv zeta.
  destruct (run_request _ _ _ _ _ _ _) as [o st1] eqn:Hrun.
  apply run_request_frame in Hrun as (Hself & Hheap & _). simpl.
  destruct o as [res|]; [|by intros [= _ <-]].
  destruct (py_getitem res "token"); [done|]. by intros [= _ <-].
Qed.

Lemma failed_login_keeps_instance_witness :
  self (snd (login (answering (JObj (failed_with (-30109) "Invalid username or password.")))
               (JStr "admin") (JStr "wrong")
               (fresh_state (explicit_omada (JStr "old-token")))))
    = self (fresh_state (explicit_omada (JStr "old-token")))
  ∧ heap (snd (login (answering (JObj (failed_with (-30109) "Invalid username or password.")))
                 (JStr "admin") (JStr "wrong")
                 (fresh_state (explicit_omada (JStr "old-token")))))
    = heap (fresh_state (explicit_omada (JStr "old-token"))).
Proof.
  apply (failed_login_keeps_instance
           (answering (JObj (failed_with (-30109) "Invalid username or password.")))
           (JStr "admin") (JStr "wrong")
           (fresh_state (explicit_omada (JStr "old-token")))
           (Omada_error {| errorCode := JNum (-30109);
                           msg := JStr (dquote +:+ "Invalid username or password."
                                          +:+ dquote) |})).
  vm_compute. reflexivity.
Defined.

Lemma credentials_explicit (o : Omada) u p :
  u ≠ JNull ∨ p ≠ JNull → credentials o u p = Ret (u, p).
Proof.
  unfold credentials. intros [H|H].
  - by rewrite (is_None_false _ H).
  - by rewrite (is_None_false _ H), andb_false_r.
Qed.

(** X9. When [login] is given a username or a password, it sends the two
    arguments as they are in one POST to [/login]: an argument left out
    goes as [None], and the configuration is not consulted for it. *)
Theorem login_sends_given_credentials w username password st b out st' :
  username ≠ JNull ∨ password ≠ JNull →
  baseurl (self st) = Some b →
  login w username password st = (out, st') →
  ∃ r, sent st' = sent st ++ [r] ∧ req_verb r = POST ∧
       req_url r = b +:+ "/api/v2/login" ∧
       req_json r = JObj {[ "username" := username; "password" := password ]}.
Proof.
  intros Hgiven Hb Hrun.
  pose proof (login_sent w username password st b username password
                (credentials_explicit _ _ _ Hgiven) Hb) as Hsent.
  rewrite Hrun in Hsent. simpl in Hsent.
  eexists. split; [exact Hsent|]. by repeat split.
Qed.

Lemma login_sends_given_credentials_witness :
  ∃ r, sent (snd (login (answering (JObj (ok_with demo_login_result)))
                    (JStr "admin") JNull
                    {| self := full_omada; heap := λ _, JNull; sent := [];
                       warned := [] |}))
       = [] ++ [r] ∧ req_verb r = POST ∧
       req_url r = "https://omada:8043" +:+ "/api/v2/login" ∧
       req_json r = JObj {[ "username" := JStr "admin"; "password" := JNull ]}.
Proof.
  apply (login_sends_given_credentials
           (answering (JObj (ok_with demo_login_result))) (JStr "admin") JNull
           {| self := full_omada; heap := λ _, JNull; sent := []; warned := [] |}
           "https://omada:8043"
           (fst (login (answering (JObj (ok_with demo_login_result)))
                   (JStr "admin") JNull
                   {| self := full_omada; heap := λ _, JNull; sent := [];
                      warned := [] |}))).
  - left. discriminate.
  - reflexivity.
  - apply surjective_pairing.
Defined.

Lemma logout_run w st :
  logout w st = run_request w POST "/logout" JNull JNull JNull st.
Proof. unfold logout. apply post_run. Qed.

Lemma getLoginStatus_run w st :
  getLoginStatus w st = run_request w GET "/loginStatus" JNull JNull JNull st.
Proof. unfold getLoginStatus. apply get_run. Qed.

(** X10. [logout] does not forget the token: after it, returned or
    raised, the instance is what it was, and the next request without
    query parameters still carries the token of the session that was
    logged out. *)
Theorem logout_keeps_token w w' st out st' :
  logout w st = (out, st') →
  self st' = self st ∧
  (token (self st) ≠ JNull →
   ∀ out2 st2 new,
     getLoginStatus w' st' = (out2, st2) →
     sent st2 = sent st' ++ new →
     Forall (λ r, req_params r =
                  JObj {[ "token" := token (self st);
                          "_" := JNum (timestamp w') ]}) new).
Proof.
  rewrite logout_run. intros Hrun.
  apply run_request_frame in Hrun as (Hself & _ & _).
  split; [done|]. intros Htok out2 st2 new.
  rewrite getLoginStatus_run. intros Hrun2 Hnew.
  pose proof (run_request_new _ _ _ _ _ _ _ _ _ _ Hrun2 Hnew) as Hshape.
  destruct (baseurl (self st')) as [b|]; subst new; [|constructor].
  constructor; [|constructor]. simpl. unfold sent_params, timestamp.
  by rewrite Hself, (is_None_false _ Htok).
Qed.

Lemma logout_keeps_token_witness :
  self (snd (logout (answering (JObj ok_empty))
               (fresh_state (explicit_omada (JStr "tk")))))
    = self (fresh_state (explicit_omada (JStr "tk")))
  ∧ Forall (λ r, req_params r =
                 JObj {[ "token" := JStr "tk";
                         "_" := JNum (timestamp (answering (JObj ok_empty))) ]})
      (drop 1 (sent (snd (getLoginStatus (answering (JObj ok_empty))
                            (snd (logout (answering (JObj ok_empty))
                                    (fresh_state (explicit_omada (JStr "tk")))))))))
  ∧ length (sent (snd (getLoginStatus (answering (JObj ok_empty))
                         (snd (logout (answering (JObj ok_empty))
                                 (fresh_state (explicit_omada (JStr "tk")))))))) = 2.
Proof.
  destruct (logout_keeps_token (answering (JObj ok_empty))
              (answering (JObj ok_empty))
              (fresh_state (explicit_omada (JStr "tk")))
              _ _ (surjective_pairing _)) as [Hself Hnext].
  split; [exact Hself|]. split; [|vm_compute; reflexivity].
  apply (Hnext ltac:(discriminate) _ _ _ (surjective_pairing _)).
  vm_compute. reflexivity.
Defined.

(** ** The requests of the accessors *)

Lemma run_request_issues_get w path st out st1 st' b :
  baseurl (self st) = Some b →
  run_request w GET path JNull JNull JNull st = (out, st1) →
  sent st' = sent st1 →
  issues_get st st' (b +:+ ApiPath +:+ path).
Proof.
  intros Hb Hrun Hsent.
  destruct (run_request_sent _ _ _ _ _ _ _ _ _ _ Hb Hrun) as [-> _].
  eexists. split; [by rewrite Hsent|]. by repeat split.
Qed.

Lemma then_data_snd run out st' : then_data run = (out, st') → snd run = st'.
Proof.
  unfold then_data. destruct run as [[res|e] st1]; simpl; by intros [= _ <-].
Qed.


Lemma getSiteSettings_sent w arg st :
  sent (snd (getSiteSettings w arg st)) =
  sent (snd (run_request w GET
               ("/sites/" +:+ default (site (self st)) arg +:+ "/setting")
               JNull JNull JNull st)).
Proof.
  rewrite getSiteSettings_run. cbv zeta.
  destruct (run_request _ _ _ _ _ _ _) as [[res|e] st1]; simpl; [|done].
  destruct (py_contains "beaconControl" res) as [[]|]; simpl; try done.
  by destruct (warnings (self st1)).
Qed.



(** X12. Without an explicit base URL the [site] argument of the
    constructor has no effect: the site of the instance is the [site]
    option of the configuration file, or [Default] when the file has
    none, and that is the site in the path of an accessor called without
    a site. *)
Theorem site_comes_from_config files name s v wn cfg sec o w st b out st' :
  files name = Some (Ret cfg) →
  cfg !! "omada" = Some sec →
  Omada_init files name None s v wn = Ret o →
  self st = o →
  baseurl o = Some b →
  getSiteDevices w None st = (out, st') →
  section_get_fallback sec "site" "Default" = Ret (site o) ∧
  issues_get st st'
    (b +:+ ApiPath +:+ "/sites/" +:+ site o +:+ "/devices").
Proof.
  intros Hfile Hsec Hinit Hself Hb Hrun.
  destruct (Omada_init_file _ _ _ _ _ _ Hinit)
    as (cfg' & sec' & Hfile' & Hsec' & _ & _ & _ & Hsite & _).
  assert (cfg' = cfg) as -> by congruence.
  assert (sec' = sec) as -> by congruence.
  split; [done|].
  rewrite getSiteDevices_run in Hrun. rewrite <- Hself in Hb.
  rewrite <- Hself.
  by apply (run_request_issues_get _ _ _ _ _ _ _ Hb Hrun).
Qed.

Lemma site_comes_from_config_witness :
  section_get_fallback full_section "site" "Default" = Ret (site full_omada)
  ∧ issues_get (fresh_state full_omada)
      (snd (getSiteDevices (answering (JObj (ok_with (JArr [])))) None
              (fresh_state full_omada)))
      ("https://omada:8043" +:+ ApiPath +:+ "/sites/" +:+ site full_omada
         +:+ "/devices").
Proof.
  apply (site_comes_from_config full_files "omada.cfg" "Elsewhere" false false
           full_config full_section full_omada
           (answering (JObj (ok_with (JArr []))))
           (fresh_state full_omada) "https://omada:8043"
           (fst (getSiteDevices (answering (JObj (ok_with (JArr [])))) None
                   (fresh_state full_omada)))).
  - reflexivity.
  - reflexivity.
  - vm_compute. reflexivity.
  - reflexivity.
  - reflexivity.
  - apply surjective_pairing.
Defined.

(** ** Results that the accessors cannot take *)

Lemma received_success w v path params data js st out st' st''
    (m : gmap string json) c :
  run_request w v path params data js st = (out, st') →
  sent st'' = sent st' →
  received w st st'' (JObj m) →
  m !! "errorCode" = Some c → py_eq_zero c = true →
  out = Ret (default JNull (m !! "result")).
Proof.
  intros Hrun Hsent Hrecv Hc Hz.
  assert (Hrecv' : received w st st' (JObj m)).
  { destruct Hrecv as (r & resp & Hs & H). exists r, resp. by rewrite <- Hsent. }
  rewrite (run_request_received _ _ _ _ _ _ _ _ _ _ Hrun Hrecv').
  apply (unwrap_envelope_success m c Hc Hz).
Qed.

Lemma then_data_received w v path params data js st out st'
    (m : gmap string json) c :
  then_data (run_request w v path params data js st) = (out, st') →
  received w st st' (JObj m) →
  m !! "errorCode" = Some c → py_eq_zero c = true →
  out = py_getitem (default JNull (m !! "result")) "data".
Proof.
  intros Hrun Hrecv Hc Hz. pose proof (then_data_snd _ _ _ Hrun) as Hsnd.
  unfold then_data in Hrun.
  destruct (run_request _ _ _ _ _ _ _) as [o st1] eqn:Hreq. simpl in *.
  subst st1.
  rewrite (received_success _ _ _ _ _ _ _ _ _ _ _ _ Hreq eq_refl Hrecv Hc Hz)
    in Hrun.
  by injection Hrun as <-.
Qed.

(** X13. The three accessors that index [data] need a dictionary with
    that key as the result of a successful envelope.  When the envelope
    has no [result] they raise [TypeError]; when the result is a
    dictionary without [data] they raise [KeyError] for [data]; when it
    is a list, as the other accessors return, they raise [TypeError]. *)
Theorem data_accessors_need_data f w arg ty group st out st'
    (m : gmap string json) c :
  f ∈ [getSiteGroups w arg ty; getWirelessGroups w arg;
       getWirelessNetworks w group arg] →
  f st = (out, st') →
  received w st st' (JObj m) →
  m !! "errorCode" = Some c →
  py_eq_zero c = true →
  (m !! "result" = None → out = Raise TypeError) ∧
  (∀ mr : gmap string json,
     m !! "result" = Some (JObj mr) → mr !! "data" = None →
     out = Raise (KeyError "data")) ∧
  (∀ l, m !! "result" = Some (JArr l) → out = Raise TypeError).
Proof.
  intros Hf Hrun Hrecv Hc Hz.
  assert (Hout : out = py_getitem (default JNull (m !! "result")) "data").
  { repeat (apply elem_of_cons in Hf as [-> | Hf]).
    - rewrite getSiteGroups_run in Hrun.
      by apply (then_data_received _ _ _ _ _ _ _ _ _ _ _ Hrun Hrecv Hc).
    - rewrite getWirelessGroups_run in Hrun.
      by apply (then_data_received _ _ _ _ _ _ _ _ _ _ _ Hrun Hrecv Hc).
    - rewrite getWirelessNetworks_run in Hrun.
      by apply (then_data_received _ _ _ _ _ _ _ _ _ _ _ Hrun Hrecv Hc).
    - by apply elem_of_nil in Hf. }
  rewrite Hout. repeat match goal with |- _ ∧ _ => split end.
  - by intros ->.
  - intros mr -> Hd. simpl. by rewrite Hd.
  - by intros l ->.
Qed.

Lemma data_accessors_need_data_witness :
  fst (getWirelessGroups (answering (JObj (ok_with (JObj {[ "totalRows" := JNum 0 ]}))))
         None (fresh_state (explicit_omada (JStr "tk"))))
    = Raise (KeyError "data").
Proof.
  destruct (data_accessors_need_data
              (getWirelessGroups
                 (answering (JObj (ok_with (JObj {[ "totalRows" := JNum 0 ]}))))
                 None)
              (answering (JObj (ok_with (JObj {[ "totalRows" := JNum 0 ]}))))
              None None "" (fresh_state (explicit_omada (JStr "tk")))
              _ _ (ok_with (JObj {[ "totalRows" := JNum 0 ]})) (JNum 0)
              ltac:(apply list_elem_of_further, list_elem_of_here)
              (surjective_pairing _))
    as (_ & Hkey & _).
  - exists (request_of
              (answering (JObj (ok_with (JObj {[ "totalRows" := JNum 0 ]}))))
              (explicit_omada (JStr "tk")) "https://omada:8043" GET
              "/sites/Default/setting/wlans" JNull JNull JNull),
      {| status_code := 200;
         body := Some (JObj (ok_with (JObj {[ "totalRows" := JNum 0 ]}))) |}.
    repeat split; vm_compute; reflexivity.
  - vm_compute. reflexivity.
  - reflexivity.
  - apply (Hkey {[ "totalRows" := JNum 0 ]}); vm_compute; reflexivity.
Defined.

(** X14. [getSiteSettings] needs a result to look into.  On a successful
    envelope without [result], or with the result [null], the test for
    [beaconControl] raises [TypeError]; no warning is emitted. *)
Theorem getSiteSettings_needs_result w arg st out st' (m : gmap string json) c :
  getSiteSettings w arg st = (out, st') →
  received w st st' (JObj m) →
  m !! "errorCode" = Some c →
  py_eq_zero c = true →
  m !! "result" = None ∨ m !! "result" = Some JNull →
  out = Raise TypeError ∧ warned st' = warned st.
Proof.
  intros Hrun Hrecv Hc Hz Hres.
  pose proof (getSiteSettings_sent w arg st) as Hsent. rewrite Hrun in Hsent.
  rewrite getSiteSettings_run in Hrun. cbv zeta in Hrun.
  destruct (run_request _ _ _ _ _ _ _) as [o st1] eqn:Hreq. simpl in *.
  rewrite (received_success _ _ _ _ _ _ _ _ _ _ _ _ Hreq Hsent Hrecv Hc Hz)
    in Hrun.
  apply run_request_frame in Hreq as (_ & _ & Hw).
  destruct Hres as [Hres|Hres]; rewrite Hres in Hrun; simpl in Hrun;
    by injection Hrun as <- <-.
Qed.

Lemma getSiteSettings_needs_result_witness :
  fst (getSiteSettings (answering (JObj ok_empty)) None
         (fresh_state (explicit_omada (JStr "tk"))))
    = Raise TypeError
  ∧ warned (snd (getSiteSettings (answering (JObj ok_empty)) None
                   (fresh_state (explicit_omada (JStr "tk")))))
    = warned (fresh_state (explicit_omada (JStr "tk"))).
Proof.
  apply (getSiteSettings_needs_result (answering (JObj ok_empty)) None
           (fresh_state (explicit_omada (JStr "tk"))) _ _ ok_empty (JNum 0)
           (surjective_pairing _)).
  - exists (request_of (answering (JObj ok_empty))
              (explicit_omada (JStr "tk")) "https://omada:8043" GET
              "/sites/Default/setting" JNull JNull JNull),
      {| status_code := 200; body := Some (JObj ok_empty) |}.
    repeat split; vm_compute; reflexivity.
  - vm_compute. reflexivity.
  - reflexivity.
  - left. vm_compute. reflexivity.
Defined.

(** ** The settings methods: warnings, the body sent, repeated calls *)

Lemma py_contains_dict_eq (m : gmap string json) k :
  py_contains k (JObj m) = Ret (bool_decide (is_Some (m !! k))).
Proof. reflexivity. Qed.

(** X15. The warning about [beaconControl] follows the [warnings] flag of
    the instance and the presence of the key.  With the flag off neither
    settings method ever warns.  With it on, [getSiteSettings] on a
    successful dictionary result, and [setSiteSettings] on a dictionary,
    emit the warning once when the key is there and not at all when it
    is not. *)
Theorem beacon_warning_follows_flag w arg l st out st' :
  (getSiteSettings w arg st = (out, st') →
   (warnings (self st) = false → warned st' = warned st) ∧
   (∀ mr : gmap string json,
      succeeded w st st' (JObj mr) →
      warned st' =
      warned st ++
        (if warnings (self st) && bool_decide (is_Some (mr !! "beaconControl"))
         then [BeaconWarning] else [])))
  ∧ (setSiteSettings w l arg st = (out, st') →
     (warnings (self st) = false → warned st' = warned st) ∧
     (∀ m : gmap string json,
        heap st l = JObj m →
        warned st' =
        warned st ++
          (if warnings (self st) && bool_decide (is_Some (m !! "beaconControl"))
           then [BeaconWarning] else []))).
Proof.
  split.
  - intros Hrun.
    pose proof (getSiteSettings_sent w arg st) as Hsent. rewrite Hrun in Hsent.
    rewrite getSiteSettings_run in Hrun. cbv zeta in Hrun.
    destruct (run_request _ _ _ _ _ _ _) as [o st1] eqn:Hreq. simpl in *.
    pose proof (run_request_frame _ _ _ _ _ _ _ _ _ Hreq) as (Hself & _ & Hw).
    rewrite Hself in Hrun. split.
    + intros Hoff. rewrite Hoff in Hrun.
      destruct o as [res|]; [|by injection Hrun as _ <-].
      by destruct (py_contains "beaconControl" res) as [[]|];
        injection Hrun as _ <-.
    + intros mr Hok.
      rewrite (succeeded_result _ _ _ _ _ _ _ _ _ _ _ Hreq Hsent Hok) in Hrun.
      rewrite py_contains_dict_eq in Hrun.
      destruct (bool_decide (is_Some (mr !! "beaconControl")));
        injection Hrun as _ <-.
      * destruct (warnings (self st)); simpl; [by rewrite Hw|].
        by rewrite app_nil_r.
      * by rewrite andb_false_r, app_nil_r.
  - intros Hrun. rewrite setSiteSettings_run in Hrun. cbv zeta in Hrun. split.
    + intros Hoff. rewrite Hoff in Hrun.
      destruct (py_contains "beaconControl" (heap st l)) as [[]|].
      * destruct (py_delitem (heap st l) "beaconControl");
          [|by injection Hrun as _ <-].
        by apply run_request_frame in Hrun as (_ & _ & ->).
      * by apply run_request_frame in Hrun as (_ & _ & ->).
      * by injection Hrun as _ <-.
    + intros m Hl. rewrite Hl, py_contains_dict_eq in Hrun. simpl in Hrun.
      destruct (m !! "beaconControl") as [x|]; simpl in *.
      * apply run_request_frame in Hrun as (_ & _ & ->).
        destruct (warnings (self st)); simpl; [done|]. by rewrite app_nil_r.
      * apply run_request_frame in Hrun as (_ & _ & ->).
        by rewrite andb_false_r, app_nil_r.
Qed.

Lemma beacon_warning_follows_flag_witness :
  warned (snd (setSiteSettings (answering (JObj ok_empty)) 0 None settings_state))
  = warned settings_state ++
      (if warnings (self settings_state) &&
          bool_decide (is_Some (demo_settings !! "beaconControl"))
       then [BeaconWarning] else []).
Proof.
  apply (proj2 (proj2 (beacon_warning_follows_flag (answering (JObj ok_empty))
                         None 0 settings_state _ _)
                  (surjective_pairing _))
           demo_settings).
  reflexivity.
Defined.

Lemma setSiteSettings_clean w l arg st :
  py_contains "beaconControl" (heap st l) = Ret false →
  setSiteSettings w l arg st =
  run_request w PATCH
    ("/sites/" +:+ default (site (self st)) arg +:+ "/setting")
    JNull JNull (heap st l) st.
Proof. intros Hin. rewrite setSiteSettings_run. cbv zeta. by rewrite Hin. Qed.

(** The store after [setSiteSettings] on a dictionary, address by
    address. *)
Lemma setSiteSettings_heap w l arg st out st' (m : gmap string json) :
  heap st l = JObj m →
  setSiteSettings w l arg st = (out, st') →
  ∀ l', heap st' l' = <[l := JObj (delete "beaconControl" m)]> (heap st) l'.
Proof.
  intros Hl Hrun. rewrite setSiteSettings_run in Hrun. cbv zeta in Hrun.
  rewrite Hl in Hrun. simpl in Hrun.
  destruct (m !! "beaconControl") as [x|] eqn:Hk; simpl in Hrun.
  - apply run_request_frame in Hrun as (_ & -> & _).
    by destruct (warnings (self st)).
  - apply run_request_frame in Hrun as (_ & -> & _).
    rewrite delete_id by done. rewrite <- Hl. intros l'.
    destruct (decide (l = l')) as [->|Hne].
    + by rewrite fn_lookup_insert.
    + by rewrite fn_lookup_insert_ne.
Qed.

(** X16. The body of the PATCH request of [setSiteSettings] is the
    caller's settings object as the call leaves it.  For a dictionary, on
    an instance with a base URL, one request goes out, to the settings of
    the site, and its body is the value the caller's object has after the
    call. *)
Theorem setSiteSettings_sends_caller_object w l arg st out st' b
    (m : gmap string json) :
  heap st l = JObj m →
  baseurl (self st) = Some b →
  setSiteSettings w l arg st = (out, st') →
  ∃ r, sent st' = sent st ++ [r] ∧ req_verb r = PATCH ∧
       req_url r = b +:+ ApiPath +:+ "/sites/"
                     +:+ default (site (self st)) arg +:+ "/setting" ∧
       req_data r = JNull ∧ req_json r = heap st' l.
Proof.
  intros Hl Hb Hrun.
  rewrite setSiteSettings_run in Hrun. cbv zeta in Hrun.
  rewrite Hl in Hrun. simpl in Hrun.
  destruct (m !! "beaconControl") as [x|] eqn:Hk; simpl in Hrun.
  - destruct (warnings (self st)); unfold run_request in Hrun;
      simpl in Hrun; rewrite Hb in Hrun; injection Hrun as <- <-;
      (eexists; split; [reflexivity|]; repeat split; simpl;
       by rewrite fn_lookup_insert).
  - unfold run_request in Hrun. rewrite Hb in Hrun. injection Hrun as <- <-.
    eexists. split; [reflexivity|]. repeat split. simpl. by rewrite Hl.
Qed.

Lemma setSiteSettings_sends_caller_object_witness :
  ∃ r, sent (snd (setSiteSettings (answering (JObj ok_empty)) 0 (Some "Lab")
                    settings_state))
       = sent settings_state ++ [r] ∧ req_verb r = PATCH ∧
       req_url r = "https://omada:8043" +:+ ApiPath +:+ "/sites/"
                     +:+ default (site (self settings_state)) (Some "Lab")
                     +:+ "/setting" ∧
       req_data r = JNull ∧
       req_json r = heap (snd (setSiteSettings (answering (JObj ok_empty)) 0
                                 (Some "Lab") settings_state)) 0.
Proof.
  apply (setSiteSettings_sends_caller_object (answering (JObj ok_empty)) 0
           (Some "Lab") settings_state
           (fst (setSiteSettings (answering (JObj ok_empty)) 0 (Some "Lab")
                   settings_state))
           _ "https://omada:8043" demo_settings).
  - reflexivity.
  - reflexivity.
  - apply surjective_pairing.
Defined.

(** X17. A second [setSiteSettings] on the same dictionary finds the key
    gone: it emits no warning and leaves every object as the first call
    left it. *)
Theorem setSiteSettings_second_call w1 w2 l arg1 arg2 st out1 st1 out2 st2
    (m : gmap string json) :
  heap st l = JObj m →
  setSiteSettings w1 l arg1 st = (out1, st1) →
  setSiteSettings w2 l arg2 st1 = (out2, st2) →
  warned st2 = warned st1 ∧ ∀ l', heap st2 l' = heap st1 l'.
Proof.
  intros Hl Hfirst Hsecond.
  pose proof (setSiteSettings_heap _ _ _ _ _ _ _ Hl Hfirst l) as Hafter.
  rewrite fn_lookup_insert in Hafter.
  rewrite setSiteSettings_clean in Hsecond.
  - apply run_request_frame in Hsecond as (_ & -> & ->). done.
  - rewrite Hafter, py_contains_dict_eq. by rewrite lookup_delete_eq.
Qed.

Lemma setSiteSettings_second_call_witness :
  warned (snd (setSiteSettings (answering (JObj ok_empty)) 0 None
                 (snd (setSiteSettings (answering (JObj ok_empty)) 0 None
                         settings_state))))
  = warned (snd (setSiteSettings (answering (JObj ok_empty)) 0 None
                   settings_state))
  ∧ ∀ l', heap (snd (setSiteSettings (answering (JObj ok_empty)) 0 None
                       (snd (setSiteSettings (answering (JObj ok_empty)) 0 None
                               settings_state)))) l'
          = heap (snd (setSiteSettings (answering (JObj ok_empty)) 0 None
                         settings_state)) l'.
Proof.
  apply (setSiteSettings_second_call (answering (JObj ok_empty))
           (answering (JObj ok_empty)) 0 None None settings_state
           (fst (setSiteSettings (answering (JObj ok_empty)) 0 None
                   settings_state))
           _
           (fst (setSiteSettings (answering (JObj ok_empty)) 0 None
                   (snd (setSiteSettings (answering (JObj ok_empty)) 0 None
                           settings_state))))
           _ demo_settings).
  - reflexivity.
  - apply surjective_pairing.
  - apply surjective_pairing.
Defined.

Lemma getSiteSettings_returns_clean w arg st v st' :
  getSiteSettings w arg st = (Ret v, st') →
  py_contains "beaconControl" v = Ret false.
Proof.
  rewrite getSiteSettings_run. cbv zeta.
  destruct (run_request _ _ _ _ _ _ _) as [[result|e] st1]; simpl; [|done].
  intros Hrun. apply (strip_beacon_clean result). unfold strip_beacon.
  destruct (py_contains "beaconControl" result) as [[]|]; congruence.
Qed.

(** X18. What [getSiteSettings] returns can be handed to
    [setSiteSettings] as it is: the call emits no warning, changes no
    object, and the body of its request is the value that was
    returned. *)
Theorem getSiteSettings_result_goes_back w1 w2 arg1 arg2 st v st1 l st0 out
    st2 new :
  getSiteSettings w1 arg1 st = (Ret v, st1) →
  heap st0 l = v →
  setSiteSettings w2 l arg2 st0 = (out, st2) →
  sent st2 = sent st0 ++ new →
  warned st2 = warned st0 ∧ heap st2 = heap st0 ∧
  Forall (λ r, req_verb r = PATCH ∧ req_json r = v) new.
Proof.
  intros Hget Hl Hset Hnew.
  pose proof (getSiteSettings_returns_clean _ _ _ _ _ Hget) as Hclean.
  rewrite <- Hl in Hclean. rewrite (setSiteSettings_clean _ _ _ _ Hclean) in Hset.
  pose proof (run_request_frame _ _ _ _ _ _ _ _ _ Hset) as (_ & Hheap & Hw).
  repeat split; [done|done|].
  pose proof (run_request_new _ _ _ _ _ _ _ _ _ _ Hset Hnew) as Hshape.
  destruct (baseurl (self st0)); subst new; [|constructor].
  by repeat constructor.
Qed.

Lemma getSiteSettings_result_goes_back_witness :
  warned (snd (setSiteSettings (answering (JObj ok_empty)) 0 None
                 {| self := explicit_omada (JStr "tk");
                    heap := λ _, JObj (delete "beaconControl" demo_settings);
                    sent := []; warned := [] |})) = []
  ∧ heap (snd (setSiteSettings (answering (JObj ok_empty)) 0 None
                 {| self := explicit_omada (JStr "tk");
                    heap := λ _, JObj (delete "beaconControl" demo_settings);
                    sent := []; warned := [] |}))
    = (λ _, JObj (delete "beaconControl" demo_settings))
  ∧ Forall (λ r, req_verb r = PATCH ∧
                 req_json r = JObj (delete "beaconControl" demo_settings))
      (sent (snd (setSiteSettings (answering (JObj ok_empty)) 0 None
                    {| self := explicit_omada (JStr "tk");
                       heap := λ _, JObj (delete "beaconControl" demo_settings);
                       sent := []; warned := [] |}))).
Proof.
  apply (getSiteSettings_result_goes_back
           (answering (JObj (ok_with (JObj demo_settings))))
           (answering (JObj ok_empty)) None None
           (fresh_state (explicit_omada (JStr "tk")))
           (JObj (delete "beaconControl" demo_settings))
           (snd (getSiteSettings (answering (JObj (ok_with (JObj demo_settings))))
                   None (fresh_state (explicit_omada (JStr "tk")))))
           0
           {| self := explicit_omada (JStr "tk");
              heap := λ _, JObj (delete "beaconControl" demo_settings);
              sent := []; warned := [] |}
           (fst (setSiteSettings (answering (JObj ok_empty)) 0 None
                   {| self := explicit_omada (JStr "tk");
                      heap := λ _, JObj (delete "beaconControl" demo_settings);
                      sent := []; warned := [] |}))).
  - vm_compute. reflexivity.
  - reflexivity.
  - apply surjective_pairing.
  - reflexivity.
Defined.

(** ** What a call may change *)

Lemma run_request_effects w v path params data js st out st' :
  run_request w v path params data js st = (out, st') →
  at_most_one_request st st' ∧
  self st' = self st ∧ heap st' = heap st ∧ warned st' = warned st.
Proof.
  intros Hrun. split; [|by apply (run_request_frame _ _ _ _ _ _ _ _ _ Hrun)].
  unfold run_request in Hrun.
  destruct (baseurl (self st)); injection Hrun as <- <-.
  - eexists. split; [reflexivity|]. simpl. lia.
  - exists []. split; [by rewrite app_nil_r|]. simpl. lia.
Qed.

Lemma then_data_effects w v path params data js st out st' :
  then_data (run_request w v path params data js st) = (out, st') →
  at_most_one_request st st' ∧
  self st' = self st ∧ heap st' = heap st ∧ warned st' = warned st.
Proof.
  intros Hrun. apply then_data_snd in Hrun.
  destruct (run_request _ _ _ _ _ _ _) as [o st1] eqn:Hreq. simpl in Hrun.
  subst st1. by apply (run_request_effects _ _ _ _ _ _ _ _ _ Hreq).
Qed.

Lemma at_most_one_request_sent st0 st st' st'' :
  sent st0 = sent st → sent st'' = sent st' →
  at_most_one_request st0 st' → at_most_one_request st st''.
Proof.
  intros H0 H2 (new & Hnew & Hlen). exists new. by rewrite H2, <- H0.
Qed.

Lemma at_most_one_request_none st st' :
  sent st' = sent st → at_most_one_request st st'.
Proof.
  intros Hs. exists []. split; [by rewrite app_nil_r|]. simpl. lia.
Qed.

Lemma login_effects w username password st out st' :
  login w username password st = (out, st') →
  at_most_one_request st st' ∧ heap st' = heap st ∧ warned st' = warned st ∧
  config (self st') = config (self st) ∧
  baseurl (self st') = baseurl (self st) ∧
  site (self st') = site (self st) ∧
  verify (self st') = verify (self st) ∧
  warnings (self st') = warnings (self st).
Proof.
  rewrite login_run.
  destruct (credentials (self st) username password) as [[u p]|].
  - cbv zeta.
    destruct (run_request _ _ _ _ _ _ _) as [o st1] eqn:Hrun.
    apply run_request_effects in Hrun as (Hone & Hself & Hheap & Hw). simpl.
    destruct o as [res|]; [|by intros [= _ <-]; rewrite Hself].
    destruct (py_getitem res "token") as [t|];
      intros [= _ <-]; [|by rewrite Hself].
    split; [|simpl; by rewrite Hself].
    by apply (at_most_one_request_sent st st st1).
  - intros [= _ <-]. repeat split. by apply at_most_one_request_none.
Qed.

Lemma getSiteSettings_effects w arg st out st' :
  getSiteSettings w arg st = (out, st') →
  at_most_one_request st st' ∧ self st' = self st ∧ heap st' = heap st.
Proof.
  intros Hrun.
  pose proof (getSiteSettings_sent w arg st) as Hsent. rewrite Hrun in Hsent.
  rewrite getSiteSettings_run in Hrun. cbv zeta in Hrun.
  destruct (run_request _ _ _ _ _ _ _) as [o st1] eqn:Hreq. simpl in *.
  apply run_request_effects in Hreq as (Hone & Hself & Hheap & _).
  split; [by apply (at_most_one_request_sent st st st1)|].
  destruct o as [res|]; [|by injection Hrun as _ <-].
  destruct (py_contains "beaconControl" res) as [[]|];
    injection Hrun as _ <-; try done.
  by destruct (warnings (self st1)).
Qed.

Lemma setSiteSettings_effects w l arg st out st' :
  setSiteSettings w l arg st = (out, st') →
  at_most_one_request st st' ∧ self st' = self st ∧
  ∀ l', l' ≠ l → heap st' l' = heap st l'.
Proof.
  rewrite setSiteSettings_run. cbv zeta. intros Hrun.
  pose proof (at_most_one_request_none st) as Hnone.
  destruct (py_contains "beaconControl" (heap st l)) as [[]|].
  - destruct (py_delitem (heap st l) "beaconControl") as [v'|].
    + apply run_request_effects in Hrun as (Hone & -> & -> & _).
      split; [|split].
      * apply (at_most_one_request_sent _ _ _ _ ltac:(reflexivity) eq_refl) in Hone.
        revert Hone. by destruct (warnings (self st)).
      * by destruct (warnings (self st)).
      * intros l' Hne. simpl. rewrite fn_lookup_insert_ne by done.
        by destruct (warnings (self st)).
    + injection Hrun as _ <-.
      destruct (warnings (self st)); (split; [by apply Hnone|done]).
  - apply run_request_effects in Hrun as (Hone & -> & -> & _). done.
  - injection Hrun as _ <-. split; [by apply Hnone|done].
Qed.

Lemma getSiteClients_effects w arg st out st' :
  getSiteClients w arg st = (out, st') →
  at_most_one_request st st' ∧
  self st' = self st ∧ heap st' = heap st ∧ warned st' = warned st.
Proof.
  intros [= _ <-]. split; [by apply at_most_one_request_none|done].
Qed.

Lemma getSiteSettings_warned w arg st out st' :
  getSiteSettings w arg st = (out, st') →
  warned st' = warned st ∨ warned st' = warned st ++ [BeaconWarning].
Proof.
  rewrite getSiteSettings_run. cbv zeta.
  destruct (run_request _ _ _ _ _ _ _) as [o st1] eqn:Hreq. simpl.
  apply run_request_frame in Hreq as (_ & _ & Hw).
  destruct o as [res|]; [|intros [= _ <-]; by left].
  destruct (py_contains "beaconControl" res) as [[]|];
    intros [= _ <-]; [|by left|by left].
  destruct (warnings (self st1)); simpl; [right|left]; by rewrite Hw.
Qed.

Lemma setSiteSettings_warned w l arg st out st' :
  setSiteSettings w l arg st = (out, st') →
  warned st' = warned st ∨ warned st' = warned st ++ [BeaconWarning].
Proof.
  rewrite setSiteSettings_run. cbv zeta. intros Hrun.
  destruct (py_contains "beaconControl" (heap st l)) as [[]|].
  - destruct (py_delitem (heap st l) "beaconControl") as [v'|].
    + apply run_request_frame in Hrun as (_ & _ & ->).
      destruct (warnings (self st)); simpl; [by right|by left].
    + injection Hrun as _ <-.
      destruct (warnings (self st)); simpl; [by right|by left].
  - apply run_request_frame in Hrun as (_ & _ & ->). by left.
  - injection Hrun as _ <-. by left.
Qed.

Ltac plain_call Hrun :=
  rewrite ?get_run, ?post_run, ?patch_run, ?logout_run, ?getLoginStatus_run,
    ?getCurrentUser_run, ?getScenarios_run, ?getPortalCandidates_run,
    ?getRadiusProfiles_run, ?getSiteDevices_run, ?getTimeRanges_run,
    ?getSiteGroups_run, ?getWirelessGroups_run, ?getWirelessNetworks_run
    in Hrun;
  first [ apply run_request_effects in Hrun
        | apply then_data_effects in Hrun
        | apply getSiteClients_effects in Hrun ].

(** X19. No method retries or sends a second request: a call of any
    method of the client, returned or raised, adds no request or one to
    those already issued, and removes none. *)
Theorem one_request_per_call c w path params data js username password arg ty
    group l st out st' :
  c ∈ [get w path params data js; post w path params data js;
       patch w path params data js; login w username password; logout w;
       getLoginStatus w; getCurrentUser w; getSiteGroups w arg ty;
       getPortalCandidates w arg; getRadiusProfiles w arg; getScenarios w;
       getSiteDevices w arg; getSiteClients w arg; getSiteSettings w arg;
       setSiteSettings w l arg; getTimeRanges w arg; getWirelessGroups w arg;
       getWirelessNetworks w group arg] →
  c st = (out, st') →
  at_most_one_request st st'.
Proof.
  intros Hc Hrun.
  repeat (apply elem_of_cons in Hc as [-> | Hc]);
    try (by apply elem_of_nil in Hc);
    try (by apply login_effects in Hrun as [? _]);
    try (by apply getSiteSettings_effects in Hrun as [? _]);
    try (by apply setSiteSettings_effects in Hrun as [? _]);
    by (plain_call Hrun; destruct Hrun as [? _]).
Qed.

Lemma one_request_per_call_witness :
  at_most_one_request (fresh_state full_omada)
    (snd (login (replying 500 None) JNull JNull (fresh_state full_omada))).
Proof.
  apply (one_request_per_call (login (replying 500 None) JNull JNull)
           (replying 500 None) "" JNull JNull JNull JNull JNull None None "" 0
           (fresh_state full_omada)
           (fst (login (replying 500 None) JNull JNull (fresh_state full_omada)))).
  - do 3 apply list_elem_of_further. apply list_elem_of_here.
  - apply surjective_pairing.
Defined.

(** X20. What each method may change, whether it returns or raises.
    [login] changes nothing of the instance but its token, no object of
    the caller and no warning.  [getSiteSettings] changes neither the
    instance nor an object of the caller, and adds no warning or the one
    about [beaconControl].  [setSiteSettings] changes neither the instance
    nor any object other than the one it was given, and adds no warning
    or that one.  Each of the other fifteen methods leaves the instance,
    the caller's objects and the warnings as they were. *)
Theorem calls_change_nothing_else w st out st' :
  (∀ c path params data js arg ty group,
     c ∈ [get w path params data js; post w path params data js;
          patch w path params data js; logout w; getLoginStatus w;
          getCurrentUser w; getSiteGroups w arg ty; getPortalCandidates w arg;
          getRadiusProfiles w arg; getScenarios w; getSiteDevices w arg;
          getSiteClients w arg; getTimeRanges w arg; getWirelessGroups w arg;
          getWirelessNetworks w group arg] →
     c st = (out, st') →
     self st' = self st ∧ heap st' = heap st ∧ warned st' = warned st) ∧
  (∀ username password,
     login w username password st = (out, st') →
     heap st' = heap st ∧ warned st' = warned st ∧
     config (self st') = config (self st) ∧
     baseurl (self st') = baseurl (self st) ∧
     site (self st') = site (self st) ∧
     verify (self st') = verify (self st) ∧
     warnings (self st') = warnings (self st)) ∧
  (∀ arg, getSiteSettings w arg st = (out, st') →
          self st' = self st ∧ heap st' = heap st ∧
          (warned st' = warned st ∨
           warned st' = warned st ++ [BeaconWarning])) ∧
  (∀ l arg, setSiteSettings w l arg st = (out, st') →
            self st' = self st ∧
            (∀ l', l' ≠ l → heap st' l' = heap st l') ∧
            (warned st' = warned st ∨
             warned st' = warned st ++ [BeaconWarning])).
Proof.
  repeat match goal with |- _ ∧ _ => split end.
  - intros c path params data js arg ty group Hc Hrun.
    repeat (apply elem_of_cons in Hc as [-> | Hc]);
      try (by apply elem_of_nil in Hc);
      by (plain_call Hrun; destruct Hrun as [_ ?]).
  - intros username password Hrun. by apply login_effects in Hrun as [_ ?].
  - intros arg Hrun. pose proof (getSiteSettings_warned _ _ _ _ _ Hrun).
    by apply getSiteSettings_effects in Hrun as (_ & ? & ?).
  - intros l arg Hrun. pose proof (setSiteSettings_warned _ _ _ _ _ _ Hrun).
    by apply setSiteSettings_effects in Hrun as (_ & ? & ?).
Qed.

Lemma calls_change_nothing_else_witness :
  (self (snd (getSiteGroups (answering (JObj (failed_with (-1) "General error.")))
                (Some "Lab") (Some IPGroup) settings_state))
     = self settings_state
   ∧ heap (snd (getSiteGroups (answering (JObj (failed_with (-1) "General error.")))
                  (Some "Lab") (Some IPGroup) settings_state))
     = heap settings_state
   ∧ warned (snd (getSiteGroups (answering (JObj (failed_with (-1) "General error.")))
                    (Some "Lab") (Some IPGroup) settings_state))
     = warned settings_state)
  ∧ (self (snd (getSiteSettings (answering (JObj (ok_with (JObj demo_table))))
                  None settings_state))
       = self settings_state
     ∧ heap (snd (getSiteSettings (answering (JObj (ok_with (JObj demo_table))))
                    None settings_state))
       = heap settings_state
     ∧ (warned (snd (getSiteSettings
                       (answering (JObj (ok_with (JObj demo_table))))
                       None settings_state))
          = warned settings_state
        ∨ warned (snd (getSiteSettings
                         (answering (JObj (ok_with (JObj demo_table))))
                         None settings_state))
          = warned settings_state ++ [BeaconWarning]))
  ∧ (self (snd (setSiteSettings (answering (JObj ok_empty)) 0 None
                  settings_state))
       = self settings_state
     ∧ (∀ l', l' ≠ 0 →
          heap (snd (setSiteSettings (answering (JObj ok_empty)) 0 None
                       settings_state)) l'
          = heap settings_state l')
     ∧ (warned (snd (setSiteSettings (answering (JObj ok_empty)) 0 None
                       settings_state))
          = warned settings_state
        ∨ warned (snd (setSiteSettings (answering (JObj ok_empty)) 0 None
                         settings_state))
          = warned settings_state ++ [BeaconWarning])).
Proof.
  split; [|split].
  - apply (proj1 (calls_change_nothing_else
                    (answering (JObj (failed_with (-1) "General error.")))
                    settings_state
                    (fst (getSiteGroups
                            (answering (JObj (failed_with (-1) "General error.")))
                            (Some "Lab") (Some IPGroup) settings_state))
                    _)
             (getSiteGroups (answering (JObj (failed_with (-1) "General error.")))
                (Some "Lab") (Some IPGroup))
             "" JNull JNull JNull (Some "Lab") (Some IPGroup) "").
    + do 6 apply list_elem_of_further. apply list_elem_of_here.
    + apply surjective_pairing.
  - apply (proj1 (proj2 (proj2 (calls_change_nothing_else
                    (answering (JObj (ok_with (JObj demo_table))))
                    settings_state
                    (fst (getSiteSettings
                            (answering (JObj (ok_with (JObj demo_table))))
                            None settings_state))
                    _))) None).
    apply surjective_pairing.
  - apply (proj2 (proj2 (proj2 (calls_change_nothing_else
                    (answering (JObj ok_empty)) settings_state
                    (fst (setSiteSettings (answering (JObj ok_empty)) 0 None
                            settings_state))
                    _))) 0 None).
    apply surjective_pairing.
Defined.

(** X21. [login] needs a token in what the controller returns.  On a
    successful envelope whose result is a dictionary without [token] it
    raises [KeyError] for [token], and on one without a result it raises
    [TypeError]; the request has gone out, and the stored token is the
    one from before. *)
Theorem login_needs_token w username password st out st'
    (m : gmap string json) c :
  login w username password st = (out, st') →
  received w st st' (JObj m) →
  m !! "errorCode" = Some c →
  py_eq_zero c = true →
  (∀ mr : gmap string json,
     m !! "result" = Some (JObj mr) → mr !! "token" = None →
     out = Raise (KeyError "token") ∧ token (self st') = token (self st)) ∧
  (m !! "result" = None →
   out = Raise TypeError ∧ token (self st') = token (self st)).
Proof.
  intros Hrun Hrecv Hc Hz.
  rewrite login_run in Hrun.
  destruct (credentials (self st) username password) as [[u p]|].
  - cbv zeta in Hrun.
    destruct (run_request _ _ _ _ _ _ _) as [o st1] eqn:Hreq. simpl in Hrun.
    pose proof (run_request_frame _ _ _ _ _ _ _ _ _ Hreq) as (Hself & _ & _).
    assert (Hsent : sent st' = sent st1).
    { destruct o as [res|]; [|by injection Hrun as _ <-].
      by destruct (py_getitem res "token"); injection Hrun as _ <-. }
    rewrite (received_success _ _ _ _ _ _ _ _ _ _ _ _ Hreq Hsent Hrecv Hc Hz)
      in Hrun.
    split.
    + intros mr Hres Htok. rewrite Hres in Hrun. simpl in Hrun.
      rewrite Htok in Hrun. injection Hrun as <- <-. by rewrite Hself.
    + intros Hres. rewrite Hres in Hrun. simpl in Hrun.
      injection Hrun as <- <-. by rewrite Hself.
  - injection Hrun as _ <-. destruct Hrecv as (r & resp & Hs & _).
    by apply app_singleton_self in Hs.
Qed.

Lemma login_needs_token_witness :
  fst (login (answering (JObj (ok_with demo_user))) (JStr "admin") (JStr "secret")
         (fresh_state (explicit_omada (JStr "old-token"))))
    = Raise (KeyError "token")
  ∧ token (self (snd (login (answering (JObj (ok_with demo_user)))
                        (JStr "admin") (JStr "secret")
                        (fresh_state (explicit_omada (JStr "old-token"))))))
    = token (self (fresh_state (explicit_omada (JStr "old-token")))).
Proof.
  destruct (login_needs_token (answering (JObj (ok_with demo_user)))
              (JStr "admin") (JStr "secret")
              (fresh_state (explicit_omada (JStr "old-token")))
              _ _ (ok_with demo_user) (JNum 0) (surjective_pairing _))
    as [Hkey _].
  - exists (request_of (answering (JObj (ok_with demo_user)))
              (explicit_omada (JStr "old-token")) "https://omada:8043" POST
              "/login" JNull JNull
              (JObj {[ "username" := JStr "admin";
                       "password" := JStr "secret" ]})),
      {| status_code := 200; body := Some (JObj (ok_with demo_user)) |}.
    repeat split; vm_compute; reflexivity.
  - vm_compute. reflexivity.
  - reflexivity.
  - apply (Hkey {[ "name" := JStr "admin";
                   "roleName" := JStr "Master Administrator" ]});
      vm_compute; reflexivity.
Defined.
